(** * The React Scripts upgrade orchestrator of claude-sequencer64

    A shallow embedding of [upgrade-test.js] (classes [UpgradeLogger],
    [BuildTester], [PackageBackup]) and of the upgrade script that follows the
    React component in [src/App/App.js] (class [ReactScriptsUpgrader] and its
    [main]).

    The scripts act on three things: the files of the project directory, the
    log artifact, and the processes they launch through [execSync].  A
    [World] holds the three; every method is a function from worlds to a
    result (a value or a thrown JavaScript error) and a new world.  What the
    launched processes, the clock and the JSON built-ins do is not code of the
    repository: it is a parameter, the [Host]. *)

From Stdlib Require Import String Ascii List Arith NArith Lia Bool.
From stdpp Require Import base option gmap strings list pretty.

Open Scope string_scope.

(** ** JavaScript values the scripts handle *)

(** The [Error] objects the scripts inspect: [error.message] always, and for
    a failed child process [error.stderr] and [error.stdout]. *)
Record JsError := mkError {
  message : string;
  stderr : option string;
  stdout : option string
}.

(** An error thrown by the runtime or by [fs]: it has a message only. *)
Definition plainError (m : string) : JsError := mkError m None None.

(** [a || d] on a possibly undefined string: [undefined] and the empty
    string are falsy. *)
Definition orElse (a : option string) (d : string) : string :=
  match a with
  | Some (String c s) => String c s
  | _ => d
  end.

(** What [JSON.parse] returns. Numbers keep their literal text. *)
#[warnings="-register-all"]
Inductive Json :=
| JNull
| JBool (b : bool)
| JNumber (literal : string)
| JStr (s : string)
| JArr (items : list Json)
| JObj (fields : list (string * Json)).

(** Assignment to an own string-keyed property: an existing key keeps its
    place, a new key goes last. *)
Fixpoint setField (key : string) (v : Json) (fields : list (string * Json))
  : list (string * Json) :=
  match fields with
  | [] => [(key, v)]
  | (k, x) :: rest =>
      if String.eqb k key then (k, v) :: rest
      else (k, x) :: setField key v rest
  end.

(** [o.key] on the own properties of an object. *)
Fixpoint getField (key : string) (fields : list (string * Json)) : option Json :=
  match fields with
  | [] => None
  | (k, x) :: rest => if String.eqb k key then Some x else getField key rest
  end.

(** [o.key = v] in strict-mode code (class bodies are strict). On [null]
    and on primitives the assignment throws a [TypeError]; on an array it
    adds a property that [JSON.stringify] does not serialise. *)
Definition setProperty (o : Json) (key : string) (v : Json) : JsError + Json :=
  match o with
  | JObj fields => inr (JObj (setField key v fields))
  | JArr items => inr (JArr items)
  | JNull =>
      inl (plainError ("Cannot set properties of null (setting '" +:+ key +:+ "')"))
  | JBool b =>
      inl (plainError ("Cannot create property '" +:+ key +:+ "' on boolean '"
                         +:+ (if b then "true" else "false") +:+ "'"))
  | JNumber n =>
      inl (plainError ("Cannot create property '" +:+ key +:+ "' on number '"
                         +:+ n +:+ "'"))
  | JStr s =>
      inl (plainError ("Cannot create property '" +:+ key +:+ "' on string '"
                         +:+ s +:+ "'"))
  end.

(** ** Files *)

(** An entry of the project directory: a regular file with its content or a
    directory with the names it lists. *)
Inductive Node :=
| File (content : string)
| Dir (entries : list string).

(** ** Child processes *)

(** [execSync] returns the captured standard output when the command exits
    with status 0; it throws when the command exits with another status,
    cannot be spawned, or is killed at the timeout. *)
Inductive ExecResult :=
| Exited (out : string)
| Failed (e : JsError).

(** ** The host *)

Class Host := {
  (** state of everything outside the project files: registry, installed
      modules, clock *)
  Env : Type;
  (** [new Date().toISOString()] *)
  toISOString : Env -> string;
  (** [execSync(command, { timeout })]: the outcome, and what the process
      did to the environment and to the files *)
  execSync : string -> option N -> Env -> gmap string Node
             -> ExecResult * Env * gmap string Node;
  (** [JSON.parse(text)], [inr m] for a [SyntaxError] with message [m] *)
  JSON_parse : string -> Json + string;
  (** [JSON.stringify(value, null, 2)] *)
  JSON_stringify : Json -> string
}.

(** ** Log entries *)

Inductive Level := INFO | WARN | ERROR | SUCCESS.

Record LogEntry := mkEntry {
  timestamp : string;
  level : Level;
  text : string
}.

Definition Level_eqb (a b : Level) : bool :=
  match a, b with
  | INFO, INFO | WARN, WARN | ERROR, ERROR | SUCCESS, SUCCESS => true
  | _, _ => false
  end.

(** ** Worlds and computations *)

Section Worlds.
Context `{Host}.

Record World := mkWorld {
  files : gmap string Node;      (* the project directory *)
  env : Env;                     (* the rest of the machine *)
  logFile : list LogEntry;       (* upgrade.log, oldest entry first *)
  spawned : list string          (* commands handed to execSync, in order *)
}.

Definition setFiles (f : gmap string Node) (w : World) : World :=
  mkWorld f (env w) (logFile w) (spawned w).

(** The outcome of running a piece of JavaScript: it returns a value or
    throws. *)
Inductive Res (A : Type) :=
| Val (a : A)
| Exn (e : JsError).
Global Arguments Val {A} a.
Global Arguments Exn {A} e.

Definition M (A : Type) : Type := World -> Res A * World.

Definition ret {A} (a : A) : M A := fun w => (Val a, w).

Definition throw {A} (e : JsError) : M A := fun w => (Exn e, w).

Definition bind {A B} (m : M A) (k : A -> M B) : M B :=
  fun w =>
    match m w with
    | (Val a, w') => k a w'
    | (Exn e, w') => (Exn e, w')
    end.

(** [try { m } catch (error) { h error }] *)
Definition tryCatch {A} (m : M A) (h : JsError -> M A) : M A :=
  fun w =>
    match m w with
    | (Val a, w') => (Val a, w')
    | (Exn e, w') => h e w'
    end.
End Worlds.

Notation "x <- m ;; k" := (bind m (fun x => k))
  (at level 100, m at next level, k at level 200, right associativity).
Notation "m ;;; k" := (bind m (fun _ => k))
  (at level 100, k at level 200, right associativity).

(** ** Node's [fs] and [child_process], on worlds *)

Module Fs.
Section Fs.
Context `{Host}.

Definition existsSync (path : string) : M bool :=
  fun w => (Val (bool_decide (is_Some (files w !! path))), w).

Definition readFileSync (path : string) : M string :=
  fun w =>
    match files w !! path with
    | Some (File content) => (Val content, w)
    | Some (Dir _) =>
        (Exn (plainError "EISDIR: illegal operation on a directory, read"), w)
    | None =>
        (Exn (plainError ("ENOENT: no such file or directory, open '"
                            +:+ path +:+ "'")), w)
    end.

Definition writeFileSync (path data : string) : M unit :=
  fun w =>
    match files w !! path with
    | Some (Dir _) =>
        (Exn (plainError ("EISDIR: illegal operation on a directory, open '"
                            +:+ path +:+ "'")), w)
    | _ => (Val tt, setFiles (<[path := File data]> (files w)) w)
    end.

Definition copyFileSync (src dest : string) : M unit :=
  fun w =>
    match files w !! src with
    | None =>
        (Exn (plainError ("ENOENT: no such file or directory, copyfile '"
                            +:+ src +:+ "' -> '" +:+ dest +:+ "'")), w)
    | Some (Dir _) =>
        (Exn (plainError ("EISDIR: illegal operation on a directory, copyfile '"
                            +:+ src +:+ "' -> '" +:+ dest +:+ "'")), w)
    | Some (File content) =>
        match files w !! dest with
        | Some (Dir _) =>
            (Exn (plainError ("EISDIR: illegal operation on a directory, copyfile '"
                                +:+ src +:+ "' -> '" +:+ dest +:+ "'")), w)
        | _ => (Val tt, setFiles (<[dest := File content]> (files w)) w)
        end
    end.

Definition unlinkSync (path : string) : M unit :=
  fun w =>
    match files w !! path with
    | Some (File _) => (Val tt, setFiles (delete path (files w)) w)
    | Some (Dir _) =>
        (Exn (plainError ("EPERM: operation not permitted, unlink '"
                            +:+ path +:+ "'")), w)
    | None =>
        (Exn (plainError ("ENOENT: no such file or directory, unlink '"
                            +:+ path +:+ "'")), w)
    end.

Definition readdirSync (path : string) : M (list string) :=
  fun w =>
    match files w !! path with
    | Some (Dir entries) => (Val entries, w)
    | Some (File _) =>
        (Exn (plainError ("ENOTDIR: not a directory, scandir '"
                            +:+ path +:+ "'")), w)
    | None =>
        (Exn (plainError ("ENOENT: no such file or directory, scandir '"
                            +:+ path +:+ "'")), w)
    end.
End Fs.
End Fs.

Module ChildProcess.
Section ChildProcess.
Context `{Host}.

(** The command is recorded, the host runs it, and its outcome is returned
    or thrown. *)
Definition run (command : string) (timeout : option N) : M string :=
  fun w =>
    match execSync command timeout (env w) (files w) with
    | (r, env', files') =>
        let w' := mkWorld files' env' (logFile w) (spawned w ++ [command]) in
        match r with
        | Exited out => (Val out, w')
        | Failed e => (Exn e, w')
        end
    end.
End ChildProcess.
End ChildProcess.

(** ** upgrade-test.js *)

Module UpgradeLogger.
Section UpgradeLogger.
Context `{Host}.

(** [log(message, level = 'INFO')]: one entry appended to the log file.
    The append is taken to succeed. *)
Definition log (msg : string) (lvl : Level) : M unit :=
  fun w =>
    (Val tt,
     mkWorld (files w) (env w)
             (logFile w ++ [mkEntry (toISOString (env w)) lvl msg])
             (spawned w)).

Definition info (msg : string) : M unit := log msg INFO.
Definition error (msg : string) : M unit := log msg ERROR.
Definition success (msg : string) : M unit := log msg SUCCESS.
Definition warn (msg : string) : M unit := log msg WARN.

Definition constructor : M unit :=
  info "=== React Scripts Upgrade Process Started ===".
End UpgradeLogger.
End UpgradeLogger.

Module BuildTester.
Section BuildTester.
Context `{Host}.

Definition legacyBuildCommand : string :=
  "CI=false NODE_OPTIONS=--openssl-legacy-provider npm run build".

(** The [try] block of [testBuild]. *)
Definition testBuild_try : M bool :=
  result <- ChildProcess.run legacyBuildCommand (Some 300000%N) ;;
  UpgradeLogger.success "Build completed successfully" ;;;
  UpgradeLogger.info ("Build output length: " +:+ pretty (String.length result)
                        +:+ " characters") ;;;
  present <- Fs.existsSync "./build" ;;
  (if present : bool then
     buildFiles <- Fs.readdirSync "./build" ;;
     UpgradeLogger.info ("Build directory contains "
                           +:+ pretty (length buildFiles) +:+ " files") ;;;
     UpgradeLogger.info ("Build files: "
                           +:+ String.concat ", " (take 10 buildFiles)
                           +:+ (if (10 <? length buildFiles)%nat then "..." else ""))
   else ret tt) ;;;
  ret true.

Definition testBuild : M bool :=
  UpgradeLogger.info "Testing build process..." ;;;
  tryCatch testBuild_try
    (fun error =>
       UpgradeLogger.error ("Build failed: " +:+ message error) ;;;
       UpgradeLogger.error ("Build stderr: " +:+ orElse (stderr error) "No stderr") ;;;
       UpgradeLogger.error ("Build stdout: " +:+ orElse (stdout error) "No stdout") ;;;
       ret false).

Definition testStart : M bool :=
  UpgradeLogger.info "Testing start process (quick check)..." ;;;
  tryCatch
    (_ <- ChildProcess.run
            ("npm run start --dry-run || echo " +:+ String "034" ("Start script verified" +:+ String "034" ""))
            (Some 10000%N) ;;
     UpgradeLogger.success "Start script verification passed" ;;;
     ret true)
    (fun error =>
       UpgradeLogger.error ("Start script test failed: " +:+ message error) ;;;
       ret false).
End BuildTester.
End BuildTester.

Module PackageBackup.
Section PackageBackup.
Context `{Host}.

Definition backupFile : string := "./package.json.backup".
Definition lockBackupFile : string := "./package-lock.json.backup".

Definition create : M bool :=
  UpgradeLogger.info "Creating package.json backup..." ;;;
  tryCatch
    (Fs.copyFileSync "./package.json" backupFile ;;;
     present <- Fs.existsSync "./package-lock.json" ;;
     (if present : bool
      then Fs.copyFileSync "./package-lock.json" lockBackupFile
      else ret tt) ;;;
     UpgradeLogger.success "Backup created successfully" ;;;
     ret true)
    (fun error =>
       UpgradeLogger.error ("Backup failed: " +:+ message error) ;;;
       ret false).

Definition restore : M bool :=
  UpgradeLogger.info "Restoring from backup..." ;;;
  tryCatch
    (Fs.copyFileSync backupFile "./package.json" ;;;
     present <- Fs.existsSync lockBackupFile ;;
     (if present : bool
      then Fs.copyFileSync lockBackupFile "./package-lock.json"
      else ret tt) ;;;
     UpgradeLogger.success "Backup restored successfully" ;;;
     ret true)
    (fun error =>
       UpgradeLogger.error ("Restore failed: " +:+ message error) ;;;
       ret false).

Definition cleanup : M unit :=
  tryCatch
    (b <- Fs.existsSync backupFile ;;
     (if b : bool then Fs.unlinkSync backupFile else ret tt) ;;;
     l <- Fs.existsSync lockBackupFile ;;
     (if l : bool then Fs.unlinkSync lockBackupFile else ret tt) ;;;
     UpgradeLogger.info "Backup files cleaned up")
    (fun error =>
       UpgradeLogger.warn ("Cleanup warning: " +:+ message error)).
End PackageBackup.
End PackageBackup.

(** [main] of upgrade-test.js, the baseline run: the value is the status
    the process exits with. *)
Module UpgradeTest.
Section UpgradeTest.
Context `{Host}.

Definition main : M nat :=
  UpgradeLogger.constructor ;;;
  UpgradeLogger.info "Phase 1: Creating backup and testing baseline" ;;;
  created <- PackageBackup.create ;;
  if negb created then ret 1%nat
  else
    UpgradeLogger.info "Testing current build to establish baseline..." ;;;
    baselinePassed <- BuildTester.testBuild ;;
    if negb baselinePassed then
      UpgradeLogger.error "Baseline build failed! Cannot proceed with upgrade." ;;;
      ret 1%nat
    else
      UpgradeLogger.success "Baseline established - current build works" ;;;
      UpgradeLogger.info "=== Upgrade test framework ready ===" ;;;
      UpgradeLogger.info
        ("Run " +:+ String "034" ("node upgrade-react-scripts.js"
                                    +:+ String "034" " to proceed with upgrade")) ;;;
      ret 0%nat.
End UpgradeTest.
End UpgradeTest.

(** ** Textual substitution, as [String.prototype.replace] does it

    A pattern is given by its matcher: [matchAt s] is the length of the
    match that starts at the head of [s], if there is one.  Texts are
    sequences of characters with codes below 256. *)

Module Text.

Fixpoint stripPrefix (lit s : string) : option string :=
  match lit, s with
  | EmptyString, _ => Some s
  | String a lit', String b s' =>
      if Ascii.eqb a b then stripPrefix lit' s' else None
  | String _ _, EmptyString => None
  end.

Fixpoint dropChars (n : nat) (s : string) : string :=
  match n, s with
  | O, _ => s
  | S k, String _ s' => dropChars k s'
  | S _, EmptyString => EmptyString
  end.

(** A literal pattern. *)
Definition matchLiteral (lit s : string) : option nat :=
  match stripPrefix lit s with
  | Some _ => Some (String.length lit)
  | None => None
  end.

(** [s.replace(/re/, rep)]: the leftmost match only. *)
Fixpoint replaceFirst (matchAt : string -> option nat) (rep s : string) : string :=
  match matchAt s with
  | Some n => rep +:+ dropChars n s
  | None =>
      match s with
      | EmptyString => EmptyString
      | String c s' => String c (replaceFirst matchAt rep s')
      end
  end.

(** [s.replace(/re/g, rep)]: every match, left to right, the search
    resuming where the previous match ended ([skip] counts the characters
    of the current match still to pass). *)
Fixpoint replaceAllFrom (matchAt : string -> option nat) (rep : string)
         (skip : nat) (s : string) : string :=
  match skip with
  | S k =>
      match s with
      | EmptyString => EmptyString
      | String _ s' => replaceAllFrom matchAt rep k s'
      end
  | O =>
      match matchAt s with
      | Some (S n) =>
          rep +:+ match s with
                  | EmptyString => EmptyString
                  | String _ s' => replaceAllFrom matchAt rep n s'
                  end
      | Some O =>
          rep +:+ match s with
                  | EmptyString => EmptyString
                  | String c s' => String c (replaceAllFrom matchAt rep 0 s')
                  end
      | None =>
          match s with
          | EmptyString => EmptyString
          | String c s' => String c (replaceAllFrom matchAt rep 0 s')
          end
      end
  end.

Definition replaceAll (matchAt : string -> option nat) (rep s : string) : string :=
  replaceAllFrom matchAt rep 0 s.

(** Whether [lit] occurs somewhere in [s]. *)
Fixpoint occurs (lit s : string) : bool :=
  match matchLiteral lit s with
  | Some _ => true
  | None =>
      match s with
      | EmptyString => false
      | String _ s' => occurs lit s'
      end
  end.

(** The class [\s], on characters below 256. *)
Definition isSpace (c : ascii) : bool :=
  let n := nat_of_ascii c in
  ((9 <=? n)%nat && (n <=? 13)%nat) || (n =? 32)%nat || (n =? 160)%nat.

Definition isQuote (c : ascii) : bool :=
  Ascii.eqb c "'"%char || Ascii.eqb c "034"%char.

(** Length of the longest run of [\s] at the head of [s], and whether the
    run holds a line feed. *)
Fixpoint spaceRun (s : string) : nat * bool :=
  match s with
  | String c s' =>
      if isSpace c then
        let '(n, nl) := spaceRun s' in
        (S n, Ascii.eqb c "010"%char || nl)
      else (O, false)
  | EmptyString => (O, false)
  end.

(** [/node-version: ['"]16['"]/] *)
Definition matchNodeVersion (s : string) : option nat :=
  match stripPrefix "node-version: " s with
  | Some (String q1 (String "1" (String "6" (String q2 _)))) =>
      if isQuote q1 && isQuote q2 then Some 18 else None
  | _ => None
  end.

(** [/export NODE_OPTIONS=--openssl-legacy-provider\s*\n\s*/]: the two
    greedy [\s*] around [\n] together take the whole run of white space
    after the literal, which must hold a line feed. *)
Definition matchLegacyExport (s : string) : option nat :=
  match stripPrefix "export NODE_OPTIONS=--openssl-legacy-provider" s with
  | Some rest =>
      let '(n, nl) := spaceRun rest in
      if nl : bool
      then Some (String.length "export NODE_OPTIONS=--openssl-legacy-provider" + n)
      else None
  | None => None
  end.

End Text.

(** ** The upgrade script (second part of src/App/App.js) *)

Record UpgradeStep := mkStep {
  version : string;
  description : string
}.

Module ReactScriptsUpgrader.
Section ReactScriptsUpgrader.
Context `{Host}.

(** [this.upgradePath], as the constructor sets it. *)
Definition upgradePath : list UpgradeStep :=
  [ mkStep "5.0.0" "React Scripts 5.0.0 - Major version with Webpack 5";
    mkStep "5.0.1" "React Scripts 5.0.1 - Latest stable in 5.x" ].

Definition parse (text : string) : M Json :=
  match JSON_parse text with
  | inl v => ret v
  | inr m => throw (plainError m)
  end.

Definition assign (o : Json) (key : string) (v : Json) : M Json :=
  match setProperty o key v with
  | inr o' => ret o'
  | inl e => throw e
  end.

Definition updateHomepageUrl_try : M unit :=
  text <- Fs.readFileSync "./package.json" ;;
  packageJson <- parse text ;;
  packageJson <- assign packageJson "homepage"
                   (JStr "https://shepsci.github.io/claude-sequencer64") ;;
  Fs.writeFileSync "./package.json" (JSON_stringify packageJson) ;;;
  UpgradeLogger.success "Homepage URL updated to claude-sequencer64".

Definition updateHomepageUrl : M unit :=
  UpgradeLogger.info "Updating homepage URL for new repository name..." ;;;
  tryCatch updateHomepageUrl_try
    (fun error =>
       UpgradeLogger.error ("Failed to update homepage: " +:+ message error)).

Definition installCommand : string := "npm install --legacy-peer-deps".

Definition installDependencies : M bool :=
  UpgradeLogger.info "Installing dependencies with legacy peer deps..." ;;;
  tryCatch
    (_ <- ChildProcess.run installCommand (Some 180000%N) ;;
     UpgradeLogger.success "Dependencies installed successfully" ;;;
     ret true)
    (fun error =>
       UpgradeLogger.error ("Dependency installation failed: " +:+ message error) ;;;
       ret false).

Definition cleanCommand : string := "rm -rf node_modules package-lock.json".

Definition installTargetCommand (targetVersion : string) : string :=
  "npm install react-scripts@" +:+ targetVersion +:+ " --legacy-peer-deps".

Definition modernBuildCommand : string := "CI=false npm run build".

(** The build check inside [upgradeToVersion]: the value of [buildPassed]. *)
Definition verifyBuild : M bool :=
  tryCatch
    (_ <- ChildProcess.run modernBuildCommand (Some 300000%N) ;;
     UpgradeLogger.success "Build successful without legacy OpenSSL provider" ;;;
     ret true)
    (fun _ =>
       UpgradeLogger.info
         "Build failed without legacy provider, trying with legacy provider..." ;;;
       BuildTester.testBuild).

(** The commands of [upgradeToVersion] that come before the build check. *)
Definition installVersion (targetVersion : string) : M unit :=
  UpgradeLogger.info "Cleaning dependencies for fresh install..." ;;;
  tryCatch
    (_ <- ChildProcess.run cleanCommand None ;; ret tt)
    (fun _ => UpgradeLogger.warn "Could not clean dependencies") ;;;
  UpgradeLogger.info ("Installing react-scripts@" +:+ targetVersion +:+ "...") ;;;
  _ <- ChildProcess.run (installTargetCommand targetVersion) (Some 300000%N) ;;
  UpgradeLogger.info "Installing all dependencies..." ;;;
  _ <- ChildProcess.run installCommand (Some 300000%N) ;;
  UpgradeLogger.success ("React Scripts " +:+ targetVersion +:+ " installed").

Definition upgradeToVersion (targetVersion description : string) : M bool :=
  UpgradeLogger.info ("Starting upgrade to " +:+ description) ;;;
  tryCatch
    (installVersion targetVersion ;;;
     UpgradeLogger.info "Testing build after upgrade..." ;;;
     buildPassed <- verifyBuild ;;
     if negb buildPassed then
       UpgradeLogger.error ("Build failed with react-scripts@" +:+ targetVersion) ;;;
       ret false
     else
       UpgradeLogger.success ("Build successful with react-scripts@" +:+ targetVersion) ;;;
       ret true)
    (fun error =>
       UpgradeLogger.error ("Upgrade to " +:+ targetVersion +:+ " failed: "
                              +:+ message error) ;;;
       UpgradeLogger.error ("Error details: "
                              +:+ orElse (stderr error)
                                    (orElse (stdout error) "No additional details")) ;;;
       ret false).

Definition browserslist : Json :=
  JObj [ ("production",
          JArr [JStr ">0.2%"; JStr "not dead"; JStr "not op_mini all"]);
         ("development",
          JArr [JStr "last 1 chrome version"; JStr "last 1 firefox version";
                JStr "last 1 safari version"]) ].

Definition handleCompatibilityIssues_try : M unit :=
  text <- Fs.readFileSync "./package.json" ;;
  packageJson <- parse text ;;
  packageJson <- assign packageJson "browserslist" browserslist ;;
  Fs.writeFileSync "./package.json" (JSON_stringify packageJson) ;;;
  UpgradeLogger.success "Updated browserslist for compatibility".

Definition handleCompatibilityIssues : M unit :=
  UpgradeLogger.info "Checking for compatibility issues..." ;;;
  tryCatch handleCompatibilityIssues_try
    (fun error =>
       UpgradeLogger.warn ("Could not update browserslist: " +:+ message error)).

Definition workflowPath : string := "./.github/workflows/deploy.yml".

(** [workflow.replace(/claude-sequencer/g, 'claude-sequencer64')] *)
Definition renameToken (workflow : string) : string :=
  Text.replaceAll (Text.matchLiteral "claude-sequencer") "claude-sequencer64" workflow.

(** The three substitutions of [updateWorkflowForNewVersion], in order. *)
Definition patchWorkflow (workflow : string) : string :=
  let workflow := Text.replaceFirst Text.matchNodeVersion "node-version: '18'" workflow in
  let workflow := Text.replaceFirst Text.matchLegacyExport "" workflow in
  renameToken workflow.

Definition updateWorkflowForNewVersion : M unit :=
  UpgradeLogger.info
    "Updating GitHub Actions workflow for newer Node/React Scripts..." ;;;
  tryCatch
    (present <- Fs.existsSync workflowPath ;;
     if present : bool then
       workflow <- Fs.readFileSync workflowPath ;;
       Fs.writeFileSync workflowPath (patchWorkflow workflow) ;;;
       UpgradeLogger.success "GitHub Actions workflow updated"
     else ret tt)
    (fun error =>
       UpgradeLogger.warn ("Could not update workflow: " +:+ message error)).

Definition upgradedMessage (upgrade : UpgradeStep) : string :=
  "‚úÖ Successfully upgraded to React Scripts " +:+ version upgrade.

(** The [if (success)] branch of the loop body: it ends the loop. *)
Definition finishUpgrade (upgrade : UpgradeStep) : M bool :=
  UpgradeLogger.success (upgradedMessage upgrade) ;;;
  updateWorkflowForNewVersion ;;;
  _ <- installDependencies ;;
  UpgradeLogger.info "Performing final build test..." ;;;
  finalTest <- BuildTester.testBuild ;;
  if finalTest : bool then
    UpgradeLogger.success "üéâ Upgrade completed successfully!" ;;;
    UpgradeLogger.info ("Final version: React Scripts " +:+ version upgrade) ;;;
    ret true
  else
    UpgradeLogger.error "Final build test failed" ;;;
    ret false.

(** The [else] branch of the loop body, up to [continue]. *)
Definition fallBack (upgrade : UpgradeStep) : M unit :=
  UpgradeLogger.warn ("‚ùå Upgrade to " +:+ version upgrade
                        +:+ " failed, trying fallback...") ;;;
  _ <- PackageBackup.restore ;;
  _ <- installDependencies ;;
  ret tt.

Definition attemptMessage (upgrade : UpgradeStep) : string :=
  String "010" ("--- Attempting upgrade to " +:+ description upgrade +:+ " ---").

(** One pass through the body of [for (const upgrade of this.upgradePath)]:
    [Some b] when the body executes [return b], [None] when it reaches
    [continue]. *)
Definition attempt (upgrade : UpgradeStep) : M (option bool) :=
  UpgradeLogger.info (attemptMessage upgrade) ;;;
  success <- upgradeToVersion (version upgrade) (description upgrade) ;;
  if success : bool then
    result <- finishUpgrade upgrade ;;
    ret (Some result)
  else
    fallBack upgrade ;;;
    ret None.

(** The loop, and the two statements after it. *)
Fixpoint tryUpgrades (path : list UpgradeStep) : M bool :=
  match path with
  | [] =>
      UpgradeLogger.error "All upgrade attempts failed" ;;;
      ret false
  | upgrade :: rest =>
      outcome <- attempt upgrade ;;
      match outcome with
      | Some result => ret result
      | None => tryUpgrades rest
      end
  end.

(** The three opening entries of [performUpgrade]. *)
Definition announce : M unit :=
  UpgradeLogger.info "=== Starting React Scripts Upgrade Process ===" ;;;
  UpgradeLogger.info
    "Note: Skipping baseline test since current build has Node.js compatibility issues" ;;;
  UpgradeLogger.info "Upgrading React Scripts will fix these issues".

(** The two manifest edits that precede the loop. *)
Definition patchManifest : M unit :=
  updateHomepageUrl ;;;
  handleCompatibilityIssues.

Definition performUpgrade (path : list UpgradeStep) : M bool :=
  announce ;;;
  created <- PackageBackup.create ;;
  if negb created then
    UpgradeLogger.error "Failed to create backup - aborting" ;;;
    ret false
  else
    patchManifest ;;;
    tryUpgrades path.

(** [main]: the value is the status passed to [process.exit]. *)
Definition main : M nat :=
  UpgradeLogger.constructor ;;;
  tryCatch
    (success <- performUpgrade upgradePath ;;
     if success : bool then
       UpgradeLogger.success "üöÄ React Scripts upgrade completed successfully!" ;;;
       UpgradeLogger.info "You can now commit the changes and deploy" ;;;
       ret 0%nat
     else
       UpgradeLogger.error "üí• Upgrade failed - restoring backup" ;;;
       _ <- PackageBackup.restore ;;
       ret 1%nat)
    (fun error =>
       UpgradeLogger.error ("Unexpected error: " +:+ message error) ;;;
       _ <- PackageBackup.restore ;;
       ret 1%nat).
End ReactScriptsUpgrader.
End ReactScriptsUpgrader.

(** ** What a run leaves behind: markers in the log *)

(** Two kinds of entries mark the course of a run: the entry that opens the
    attempt of a step, and the first entry [restore] writes. *)
Inductive Marker :=
| Attempted (msg : string)
| Restored.

Definition marker (e : LogEntry) : option Marker :=
  match level e with
  | INFO =>
      if String.eqb (text e) "Restoring from backup..." then Some Restored
      else match Text.stripPrefix (String "010" "--- Attempting upgrade to ") (text e) with
           | Some _ => Some (Attempted (text e))
           | None => None
           end
  | _ => None
  end.

Definition markers (entries : list LogEntry) : list Marker := omap marker entries.

(** ** Reasoning about computations *)

Section Laws.
Context `{Host}.

(** [m] never throws. *)
Definition total {A} (m : M A) : Prop :=
  forall w, exists a, (m w).1 = Val a.

(** Every run of [m] relates the world it starts in to the world it
    ends in, whether it returns or throws. *)
Definition respects (R : relation World) {A} (m : M A) : Prop :=
  forall w, R w (m w).2.

(** Relations between the world before and the world after. *)
Definition sameSpawned : relation World := fun w w' => spawned w' = spawned w.
Definition sameFiles : relation World := fun w w' => files w' = files w.
Definition sameEnv : relation World := fun w w' => env w' = env w.
Definition sameLog : relation World := fun w w' => logFile w' = logFile w.
Definition sameMarkers : relation World :=
  fun w w' => markers (logFile w') = markers (logFile w).
Definition sameAt (path : string) : relation World :=
  fun w w' => files w' !! path = files w !! path.
(** Nothing but logging happened. *)
Definition onlyLogged : relation World :=
  fun w w' => files w' = files w /\ env w' = env w /\ spawned w' = spawned w.

(** [m] looks at the files only: from two worlds with the same files it
    gives the same result and again the same files. *)
Definition filesOnly {A} (m : M A) : Prop :=
  forall w w', files w' = files w ->
               (m w').1 = (m w).1 /\ files (m w').2 = files (m w).2.

End Laws.

(** ** Runs of the loop *)

Section Runs.
Context `{Host}.

(** The world in which the loop of [performUpgrade] starts, when the
    backup was created. *)
Definition loopStart (w : World) : World :=
  (ReactScriptsUpgrader.patchManifest
     (PackageBackup.create (ReactScriptsUpgrader.announce w).2).2).2.

(** The world after the steps of [pre] were attempted one after the other. *)
Fixpoint afterAttempts (pre : list UpgradeStep) (w : World) : World :=
  match pre with
  | [] => w
  | upgrade :: rest => afterAttempts rest (ReactScriptsUpgrader.attempt upgrade w).2
  end.

(** Each step of [pre], attempted in turn from [w], fails its own
    verification ([upgradeToVersion] returns false) and the loop goes on. *)
Fixpoint allFallBack (pre : list UpgradeStep) (w : World) : Prop :=
  match pre with
  | [] => True
  | upgrade :: rest =>
      (ReactScriptsUpgrader.attempt upgrade w).1 = Val None /\
      allFallBack rest (ReactScriptsUpgrader.attempt upgrade w).2
  end.

(** The markers a run leaves when the steps of [pre] fall back and
    [upgrade] is then attempted. *)
Definition trail (pre : list UpgradeStep) (upgrade : UpgradeStep) : list Marker :=
  (flat_map (fun p => [Attempted (ReactScriptsUpgrader.attemptMessage p); Restored]) pre
     ++ [Attempted (ReactScriptsUpgrader.attemptMessage upgrade)])%list.
End Runs.

(** ** Hosts and worlds for examples *)

Module Demo.

Definition quote (s : string) : string := String "034" (s +:+ String "034" "").

(** [JSON.stringify(value, null, 2)] on values whose strings need no
    escape. *)
Fixpoint stringify (indent : string) (j : Json) : string :=
  match j with
  | JNull => "null"
  | JBool b => if b then "true" else "false"
  | JNumber n => n
  | JStr s => quote s
  | JArr [] => "[]"
  | JArr items =>
      let inner := indent +:+ "  " in
      "[" +:+ String "010" inner
        +:+ String.concat ("," +:+ String "010" inner) (List.map (stringify inner) items)
        +:+ String "010" indent +:+ "]"
  | JObj [] => "{}"
  | JObj fields =>
      let inner := indent +:+ "  " in
      "{" +:+ String "010" inner
        +:+ String.concat ("," +:+ String "010" inner)
              (List.map (fun kv => quote kv.1 +:+ ": " +:+ stringify inner kv.2) fields)
        +:+ String "010" indent +:+ "}"
  end.

Definition withHomepage : Json :=
  JObj [("homepage", JStr "https://shepsci.github.io/claude-sequencer64")].

(** [JSON.parse] on the few texts the examples hold. *)
Definition parse (text : string) : Json + string :=
  if String.eqb text "{}" then inl (JObj [])
  else if String.eqb text "null" then inl JNull
  else if String.eqb text (stringify "" withHomepage) then inl withHomepage
  else inr "Unexpected token in JSON".

Definition now : string := "2025-07-01T12:00:00.000Z".

(** The environment of the examples is the version of react-scripts that
    is installed. *)
Definition host (exec : string -> option N -> string -> gmap string Node
                        -> ExecResult * string * gmap string Node) : Host :=
  {| Env := string;
     toISOString := fun _ => now;
     execSync := exec;
     JSON_parse := parse;
     JSON_stringify := stringify "" |}.

Definition exitFailure (command : string) : JsError :=
  mkError ("Command failed: " +:+ command) (Some "npm ERR!") (Some "").

Definition built (files : gmap string Node) : gmap string Node :=
  <["./build" := Dir ["index.html"; "static"]]> files.

Definition cleaned (files : gmap string Node) : gmap string Node :=
  delete "./package-lock.json" files.

(** Installations succeed and record the version; [decide] tells whether
    a build command passes, from the command, the timeout and the version
    installed. *)
Definition npm (builds : string -> string -> bool) (installs : option N -> bool)
           (command : string) (timeout : option N) (installed : string)
           (files : gmap string Node)
  : ExecResult * string * gmap string Node :=
  if String.eqb command ReactScriptsUpgrader.cleanCommand then
    (Exited "", installed, cleaned files)
  else if String.eqb command (ReactScriptsUpgrader.installTargetCommand "5.0.0") then
    (Exited "added 1 package", "5.0.0", files)
  else if String.eqb command (ReactScriptsUpgrader.installTargetCommand "5.0.1") then
    (Exited "added 1 package", "5.0.1", files)
  else if String.eqb command ReactScriptsUpgrader.installCommand then
    if installs timeout then (Exited "up to date", installed, files)
    else (Failed (mkError "spawnSync /bin/sh ETIMEDOUT" (Some "") (Some "")),
          installed, files)
  else if String.eqb command ReactScriptsUpgrader.modernBuildCommand
          || String.eqb command BuildTester.legacyBuildCommand then
    if builds command installed then (Exited "Compiled successfully.", installed, built files)
    else (Failed (exitFailure command), installed, files)
  else (Failed (exitFailure command), installed, files).

(** No command succeeds. *)
Definition offline : Host :=
  host (fun command _ installed files => (Failed (exitFailure command), installed, files)).

(** Every build passes except the legacy invocation under 5.0.0. *)
Definition legacyBreaksOn500 : Host :=
  host (npm (fun command installed =>
               negb (String.eqb command BuildTester.legacyBuildCommand
                     && String.eqb installed "5.0.0"))
            (fun _ => true)).

(** The modern invocation fails, the legacy one passes. *)
Definition legacyOnly : Host :=
  host (npm (fun command _ => String.eqb command BuildTester.legacyBuildCommand)
            (fun _ => true)).

(** Builds pass under 5.0.1 only. *)
Definition only501 : Host :=
  host (npm (fun _ installed => String.eqb installed "5.0.1") (fun _ => true)).

(** Builds pass; an installation takes four minutes, so it is killed
    under the three-minute timeout of [installDependencies]. *)
Definition slowInstall : Host :=
  host (npm (fun _ _ => true)
            (fun timeout =>
               match timeout with
               | Some ms => (240000 <=? ms)%N
               | None => true
               end)).

(** The build script exits with status 0 and leaves no directory. *)
Definition buildsElsewhere : Host :=
  host (fun command _ installed files => (Exited "done", installed, files)).

(** The same, except that the build fails without the legacy flag. *)
Definition buildsElsewhereLegacyOnly : Host :=
  host (fun command _ installed files =>
          if String.eqb command ReactScriptsUpgrader.modernBuildCommand
          then (Failed (exitFailure command), installed, files)
          else (Exited "done", installed, files)).

Definition project (H : Host) (installed : @Env H) (files : gmap string Node)
  : @World H :=
  mkWorld files installed [] [].

Definition step500 : UpgradeStep :=
  mkStep "5.0.0" "React Scripts 5.0.0 - Major version with Webpack 5".
Definition step501 : UpgradeStep :=
  mkStep "5.0.1" "React Scripts 5.0.1 - Latest stable in 5.x".

(** A project on react-scripts 4.0.3 with an empty manifest object and a
    lock file. *)
Definition fresh (H : Host) (installed : @Env H) : @World H :=
  project H installed
    {[ "./package.json" := File "{}"; "./package-lock.json" := File "lock-4.0.3" ]}.

(** A deployment workflow in the shape the patch expects. *)
Definition deployYml : string :=
  String.concat (String "010" "")
    [ "      - uses: actions/setup-node@v3";
      "        with:";
      "          node-version: '16'";
      "      - run: |";
      "          export NODE_OPTIONS=--openssl-legacy-provider";
      "          npm run build";
      "      - run: cp -r build/ ../claude-sequencer/";
      "" ].

Definition withWorkflow (H : Host) (installed : @Env H) : @World H :=
  project H installed
    {[ "./package.json" := File "{}";
       "./.github/workflows/deploy.yml" := File deployYml ]}.

(** A project whose two backup files are in place. *)
Definition backedUp (H : Host) (installed : @Env H) : @World H :=
  project H installed
    {[ "./package.json" := File "{}";
       "./package-lock.json" := File "lock-4.0.3";
       "./package.json.backup" := File "{}";
       "./package-lock.json.backup" := File "lock-4.0.3" ]}.

(** A project whose lock file is a directory. *)
Definition lockIsDirectory : @World offline :=
  project offline "4.0.3"
    {[ "./package.json" := File "{}";
       "./package-lock.json" := Dir ["old"];
       "./package.json.backup" := File "manifest of an earlier run" ]}.

(** Every command succeeds and builds into [./build]. *)
Definition healthy : Host :=
  host (npm (fun _ _ => true) (fun _ => true)).

(** A directory without manifest, in which an earlier run left its backup. *)
Definition noManifest : @World offline :=
  project offline "4.0.3" {[ "./package.json.backup" := File "manifest of an earlier run" ]}.

(** A project whose manifest is the JSON text [null]. *)
Definition nullManifest : @World offline :=
  project offline "4.0.3" {[ "./package.json" := File "null" ]}.

End Demo.

(** * Properties *)

(** ** Laws of the computations *)

Section LawsFacts.
Context `{Host}.

Lemma total_ret {A} (a : A) : total (ret a).
Proof. intros w. eexists. reflexivity. Qed.

Lemma total_bind {A B} (m : M A) (k : A -> M B) :
  total m -> (forall a, total (k a)) -> total (bind m k).
Proof.
  intros Hm Hk w. unfold bind.
  destruct (Hm w) as [a Ha]. destruct (m w) as [r w']. simpl in Ha. subst r.
  apply Hk.
Qed.

Lemma total_tryCatch {A} (m : M A) (h : JsError -> M A) :
  (forall e, total (h e)) -> total (tryCatch m h).
Proof.
  intros Hh w. unfold tryCatch.
  destruct (m w) as [[a|e] w']; [eexists; reflexivity | apply Hh].
Qed.

Lemma total_if {A} (b : bool) (x y : M A) :
  total x -> total y -> total (if b then x else y).
Proof. destruct b; auto. Qed.

Lemma total_log msg lvl : total (UpgradeLogger.log msg lvl).
Proof. intros w. eexists. reflexivity. Qed.

Lemma total_existsSync path : total (Fs.existsSync path).
Proof. intros w. eexists. reflexivity. Qed.

Section Respects.
Context (R : relation World) `{!PreOrder R}.

Lemma respects_ret {A} (a : A) : respects R (ret a).
Proof. intros w. simpl. reflexivity. Qed.

Lemma respects_throw {A} e : respects R (throw (A:=A) e).
Proof. intros w. simpl. reflexivity. Qed.

Lemma respects_bind {A B} (m : M A) (k : A -> M B) :
  respects R m -> (forall a, respects R (k a)) -> respects R (bind m k).
Proof.
  intros Hm Hk w. unfold bind. specialize (Hm w).
  destruct (m w) as [[a|e] w']; simpl in *; [|assumption].
  etransitivity; [exact Hm | apply Hk].
Qed.

Lemma respects_tryCatch {A} (m : M A) (h : JsError -> M A) :
  respects R m -> (forall e, respects R (h e)) -> respects R (tryCatch m h).
Proof.
  intros Hm Hh w. unfold tryCatch. specialize (Hm w).
  destruct (m w) as [[a|e] w']; simpl in *; [assumption|].
  etransitivity; [exact Hm | apply Hh].
Qed.

Lemma respects_if {A} (b : bool) (x y : M A) :
  respects R x -> respects R y -> respects R (if b then x else y).
Proof. destruct b; auto. Qed.
End Respects.

Global Instance sameSpawned_po : PreOrder sameSpawned.
Proof. split; unfold sameSpawned; [intros w | intros a b c]; congruence. Qed.
Global Instance sameFiles_po : PreOrder sameFiles.
Proof. split; unfold sameFiles; [intros w | intros a b c]; congruence. Qed.
Global Instance sameEnv_po : PreOrder sameEnv.
Proof. split; unfold sameEnv; [intros w | intros a b c]; congruence. Qed.
Global Instance sameLog_po : PreOrder sameLog.
Proof. split; unfold sameLog; [intros w | intros a b c]; congruence. Qed.
Global Instance sameMarkers_po : PreOrder sameMarkers.
Proof. split; unfold sameMarkers; [intros w | intros a b c]; congruence. Qed.
Global Instance sameAt_po path : PreOrder (sameAt path).
Proof. split; unfold sameAt; [intros w | intros a b c]; congruence. Qed.
Global Instance onlyLogged_po : PreOrder onlyLogged.
Proof.
  split; unfold onlyLogged; [intros w | intros a b c]; intuition congruence.
Qed.
End LawsFacts.

(** Goals [total m] and [respects R m] are settled by following the shape
    of [m]. *)
Ltac follow leaf :=
  repeat first
    [ leaf
    | apply total_ret | apply total_log | apply total_existsSync
    | apply total_bind; [| intros ?]
    | apply total_tryCatch; intros ?
    | apply total_if
    | apply respects_ret; typeclasses eauto
    | apply respects_throw; typeclasses eauto
    | apply respects_bind; [typeclasses eauto | | intros ?]
    | apply respects_tryCatch; [typeclasses eauto | | intros ?]
    | apply respects_if ].

Section Leaves.
Context `{Host}.

Lemma markers_snoc entries e :
  markers (entries ++ [e]) = (markers entries ++ from_option (fun m => [m]) [] (marker e))%list.
Proof.
  unfold markers. rewrite omap_app. simpl. destruct (marker e); reflexivity.
Qed.

Lemma sameMarkers_run c t : respects sameMarkers (ChildProcess.run c t).
Proof.
  intros w. unfold ChildProcess.run, sameMarkers.
  destruct (execSync _ _ _ _) as [[[o|e] e'] f']; reflexivity.
Qed.

End Leaves.

(** A primitive step against one of the relations: unfold and compute. *)
Ltac primitive :=
  let w := fresh "w" in
  intros w;
  unfold sameMarkers, sameSpawned, sameFiles, sameEnv, sameLog, sameAt, onlyLogged,
    UpgradeLogger.info, UpgradeLogger.error, UpgradeLogger.success,
    UpgradeLogger.warn, UpgradeLogger.log,
    Fs.existsSync, Fs.readFileSync, Fs.writeFileSync, Fs.copyFileSync,
    Fs.unlinkSync, Fs.readdirSync, ReactScriptsUpgrader.parse,
    ReactScriptsUpgrader.assign, ret, throw;
  simpl;
  repeat case_match; simpl;
  rewrite ?markers_snoc; simpl; rewrite ?app_nil_r;
  solve [done | eexists; reflexivity | simplify_map_eq; done].

Ltac known :=
  match goal with
  | |- respects sameMarkers (ChildProcess.run _ _) => apply sameMarkers_run
  | |- respects _ (UpgradeLogger.log _ _) => primitive
  | |- respects _ (UpgradeLogger.info _) => primitive
  | |- respects _ (UpgradeLogger.error _) => primitive
  | |- respects _ (UpgradeLogger.success _) => primitive
  | |- respects _ (UpgradeLogger.warn _) => primitive
  | |- respects _ (Fs.existsSync _) => primitive
  | |- respects _ (Fs.readFileSync _) => primitive
  | |- respects _ (Fs.writeFileSync _ _) => primitive
  | |- respects _ (Fs.copyFileSync _ _) => primitive
  | |- respects _ (Fs.unlinkSync _) => primitive
  | |- respects _ (Fs.readdirSync _) => primitive
  | |- respects _ (ReactScriptsUpgrader.parse _) => primitive
  | |- respects _ (ReactScriptsUpgrader.assign _ _ _) => primitive
  | |- total (UpgradeLogger.info _) => primitive
  | |- total (UpgradeLogger.error _) => primitive
  | |- total (UpgradeLogger.success _) => primitive
  | |- total (UpgradeLogger.warn _) => primitive
  end.

Ltac settle := follow ltac:(idtac; known).
Ltac settleWith lemmas := follow ltac:(first [lemmas | known]).

Section Methods.
Context `{Host}.

Lemma total_testBuild : total BuildTester.testBuild.
Proof. unfold BuildTester.testBuild. settle. Qed.

Lemma sameMarkers_testBuild : respects sameMarkers BuildTester.testBuild.
Proof.
  unfold BuildTester.testBuild, BuildTester.testBuild_try. settle.
Qed.

Lemma total_create : total PackageBackup.create.
Proof. unfold PackageBackup.create. settle. Qed.

Lemma total_restore : total PackageBackup.restore.
Proof. unfold PackageBackup.restore. settle. Qed.

Lemma sameMarkers_create : respects sameMarkers PackageBackup.create.
Proof. unfold PackageBackup.create. settle. Qed.

Lemma total_installDependencies : total ReactScriptsUpgrader.installDependencies.
Proof. unfold ReactScriptsUpgrader.installDependencies. settle. Qed.

Lemma sameMarkers_installDependencies :
  respects sameMarkers ReactScriptsUpgrader.installDependencies.
Proof. unfold ReactScriptsUpgrader.installDependencies. settle. Qed.

Lemma total_upgradeToVersion v d : total (ReactScriptsUpgrader.upgradeToVersion v d).
Proof. unfold ReactScriptsUpgrader.upgradeToVersion. settle. Qed.

Lemma sameMarkers_verifyBuild : respects sameMarkers ReactScriptsUpgrader.verifyBuild.
Proof.
  unfold ReactScriptsUpgrader.verifyBuild.
  settleWith ltac:(apply sameMarkers_testBuild).
Qed.

Lemma sameMarkers_upgradeToVersion v d :
  respects sameMarkers (ReactScriptsUpgrader.upgradeToVersion v d).
Proof.
  unfold ReactScriptsUpgrader.upgradeToVersion, ReactScriptsUpgrader.installVersion.
  settleWith ltac:(apply sameMarkers_verifyBuild).
Qed.

Lemma total_updateHomepageUrl : total ReactScriptsUpgrader.updateHomepageUrl.
Proof. unfold ReactScriptsUpgrader.updateHomepageUrl. settle. Qed.

Lemma total_handleCompatibilityIssues :
  total ReactScriptsUpgrader.handleCompatibilityIssues.
Proof. unfold ReactScriptsUpgrader.handleCompatibilityIssues. settle. Qed.

Lemma total_updateWorkflowForNewVersion :
  total ReactScriptsUpgrader.updateWorkflowForNewVersion.
Proof. unfold ReactScriptsUpgrader.updateWorkflowForNewVersion. settle. Qed.

Lemma sameMarkers_updateWorkflowForNewVersion :
  respects sameMarkers ReactScriptsUpgrader.updateWorkflowForNewVersion.
Proof. unfold ReactScriptsUpgrader.updateWorkflowForNewVersion. settle. Qed.
End Methods.

(** ** The Backup Manager *)

Ltac unfoldBackup :=
  unfold PackageBackup.create, PackageBackup.restore, PackageBackup.backupFile,
    PackageBackup.lockBackupFile, tryCatch, bind, ret, throw,
    UpgradeLogger.info, UpgradeLogger.error, UpgradeLogger.success,
    UpgradeLogger.log, Fs.copyFileSync, Fs.existsSync, setFiles in *.

Ltac decided :=
  repeat match goal with
    | E : bool_decide (is_Some _) = false |- _ =>
        apply bool_decide_eq_false in E; apply eq_None_not_Some in E
    | E : bool_decide (is_Some _) = true |- _ =>
        apply bool_decide_eq_true in E; destruct E as [? E]
    end.

Section Backup.
Context `{Host}.

(** What a successful [create] did to the files. *)
Lemma create_true_files (w w1 : World) :
  PackageBackup.create w = (Val true, w1) ->
  exists m,
    files w !! "./package.json" = Some (File m) /\
    files w1 !! "./package.json.backup" = Some (File m) /\
    (forall l, files w !! "./package-lock.json" = Some (File l) ->
               files w1 !! "./package-lock.json.backup" = Some (File l)) /\
    (files w !! "./package-lock.json" = None ->
     files w1 !! "./package-lock.json.backup"
     = files w !! "./package-lock.json.backup") /\
    (forall es, files w !! "./package-lock.json" <> Some (Dir es)) /\
    (forall p, p <> "./package.json.backup" -> p <> "./package-lock.json.backup" ->
               files w1 !! p = files w !! p).
Proof.
  unfoldBackup. simpl. intros Hc.
  repeat case_match; simplify_eq/=; simplify_map_eq; decided.
  all: eexists; repeat split; try done; intros; simplify_map_eq; try done.
  all: congruence.
Qed.

(** [restore] brings back what the backup files hold. *)
Lemma restore_files (w : World) m :
  files w !! "./package.json.backup" = Some (File m) ->
  (forall es, files w !! "./package.json" <> Some (Dir es)) ->
  exists b w',
    PackageBackup.restore w = (Val b, w') /\
    files w' !! "./package.json" = Some (File m) /\
    (forall l, files w !! "./package-lock.json.backup" = Some (File l) ->
               (forall es, files w !! "./package-lock.json" <> Some (Dir es)) ->
               b = true /\ files w' !! "./package-lock.json" = Some (File l)) /\
    (files w !! "./package-lock.json.backup" = None ->
     b = true /\ files w' !! "./package-lock.json" = files w !! "./package-lock.json") /\
    (forall p, p <> "./package.json" -> p <> "./package-lock.json" ->
               files w' !! p = files w !! p).
Proof.
  unfoldBackup. simpl. intros Hb Hd. rewrite Hb.
  repeat case_match; simplify_eq/=; simplify_map_eq; decided;
    try (exfalso; eapply Hd; eauto; fail).
  all: do 2 eexists; repeat split; try done; intros; simplify_map_eq; try done.
  all: naive_solver.
Qed.
End Backup.

(** C8. Backup round trip: when [create] succeeds on a project whose
    manifest holds [m], then, whatever is done afterwards to the live manifest
    and lock file (new content or deletion, the backup copies left alone),
    [restore] puts [m] back as the live manifest, byte for byte, and puts back
    the lock file [l] that was captured, when there was one. *)
Theorem backup_round_trip `{Host} (m : string) (w w1 w2 : World) :
  files w !! "./package.json" = Some (File m) ->
  PackageBackup.create w = (Val true, w1) ->
  (forall p, p <> "./package.json" -> p <> "./package-lock.json" ->
             files w2 !! p = files w1 !! p) ->
  (forall es, files w2 !! "./package.json" <> Some (Dir es)) ->
  (forall es, files w2 !! "./package-lock.json" <> Some (Dir es)) ->
  exists b w3,
    PackageBackup.restore w2 = (Val b, w3) /\
    files w3 !! "./package.json" = Some (File m) /\
    (forall l, files w !! "./package-lock.json" = Some (File l) ->
               b = true /\ files w3 !! "./package-lock.json" = Some (File l)).
Proof.
  intros Hm Hc Hmut Hd1 Hd2.
  destruct (create_true_files _ _ Hc) as (m' & Hm' & Hb & Hl & _ & _ & _).
  assert (m' = m) by congruence. subst m'.
  destruct (restore_files w2 m) as (b & w3 & Hr & Hpkg & Hlock & _ & _).
  - rewrite Hmut; done.
  - exact Hd1.
  - exists b, w3. split; [exact Hr|]. split; [exact Hpkg|].
    intros l Hl0. apply Hlock; [|exact Hd2].
    rewrite Hmut; [|done..]. apply Hl, Hl0.
Qed.

(** A project with a manifest and a lock file; after the backup both are
    overwritten. *)
Lemma backup_round_trip_witness :
  let w := Demo.project Demo.offline "4.0.3"
             {[ "./package.json" := File "{}"; "./package-lock.json" := File "lock-1" ]} in
  let w1 := (PackageBackup.create w).2 in
  let w2 := setFiles (<["./package.json" := File "broken"]>
                        (delete "./package-lock.json" (files w1))) w1 in
  exists b w3,
    PackageBackup.restore w2 = (Val b, w3) /\
    files w3 !! "./package.json" = Some (File "{}") /\
    (forall l, files w !! "./package-lock.json" = Some (File l) ->
               b = true /\ files w3 !! "./package-lock.json" = Some (File l)).
Proof.
  intros w w1 w2.
  apply (backup_round_trip "{}" w w1 w2).
  - vm_compute. reflexivity.
  - vm_compute. reflexivity.
  - intros p Hp Hq. subst w2. unfold setFiles. simpl.
    rewrite lookup_insert_ne by done. rewrite lookup_delete_ne by done. reflexivity.
  - intros es. vm_compute. discriminate.
  - intros es. vm_compute. discriminate.
Defined.

(** C2, at the input where it fails. A first snapshot is taken of a project
    with a lock file; the project then has a new manifest and no lock file;
    a second snapshot is taken. Both calls of [create] return true, and the
    second leaves the lock file copied by the first in place: [restore]
    brings back the second manifest together with the first lock file. *)
Theorem create_twice_stale_lock :
  let w := Demo.project Demo.offline "4.0.3"
             {[ "./package.json" := File "manifest-1";
                "./package-lock.json" := File "lock-1" ]} in
  let w1 := (PackageBackup.create w).2 in
  let w2 := setFiles (<["./package.json" := File "manifest-2"]>
                        (delete "./package-lock.json" (files w1))) w1 in
  let w3 := (PackageBackup.create w2).2 in
  let w4 := (PackageBackup.restore w3).2 in
  (PackageBackup.create w).1 = Val true /\
  (PackageBackup.create w2).1 = Val true /\
  files w2 !! "./package.json" = Some (File "manifest-2") /\
  files w2 !! "./package-lock.json" = None /\
  (PackageBackup.restore w3).1 = Val true /\
  files w4 !! "./package.json" = Some (File "manifest-2") /\
  files w4 !! "./package-lock.json" = Some (File "lock-1").
Proof. vm_compute. repeat split. Qed.

(** ** The Build Verifier *)

Section BuildVerifier.
Context `{Host}.

(** [testBuild] runs the legacy command once; its value is false when the
    command fails, and also when the command succeeds and [./build] is a
    regular file, which [readdirSync] refuses. *)
Lemma testBuild_spec (w : World) :
  let outcome := execSync BuildTester.legacyBuildCommand (Some 300000%N)
                   (env w) (files w) in
  let run := BuildTester.testBuild w in
  run.1 = Val (match outcome.1.1 with
               | Exited _ =>
                   match outcome.2 !! "./build" with
                   | Some (File _) => false
                   | _ => true
                   end
               | Failed _ => false
               end) /\
  spawned run.2 = (spawned w ++ [BuildTester.legacyBuildCommand])%list /\
  files run.2 = outcome.2 /\
  env run.2 = outcome.1.2.
Proof.
  unfold BuildTester.testBuild, BuildTester.testBuild_try, ChildProcess.run,
    tryCatch, bind, ret, UpgradeLogger.info, UpgradeLogger.success,
    UpgradeLogger.error, UpgradeLogger.log, Fs.existsSync, Fs.readdirSync.
  simpl.
  destruct (execSync _ _ _ _) as [[[out|e] env'] files']; simpl; [|done].
  destruct (files' !! "./build") as [[c|es]|] eqn:E; simpl; rewrite ?E; done.
Qed.
End BuildVerifier.

(** C7, at the input where it fails. The build script exits with status 0
    and the project holds a regular file named [build]: [testBuild] logs
    that the build completed successfully, then that it failed, and returns
    false. *)
Theorem testBuild_build_is_a_file :
  let w := Demo.project Demo.buildsElsewhere "5.0.1"
             {[ "./package.json" := File "{}"; "./build" := File "#!/bin/sh" ]} in
  let run := BuildTester.testBuild w in
  (execSync BuildTester.legacyBuildCommand (Some 300000%N) (env w) (files w)).1.1
  = Exited "done" /\
  run.1 = Val false /\
  files run.2 = files w /\
  map (fun e => (level e, text e)) (logFile run.2)
  = [ (INFO, "Testing build process...");
      (SUCCESS, "Build completed successfully");
      (INFO, "Build output length: 4 characters");
      (ERROR, "Build failed: ENOTDIR: not a directory, scandir './build'");
      (ERROR, "Build stderr: No stderr");
      (ERROR, "Build stdout: No stdout") ].
Proof. vm_compute. repeat split. Qed.

Section Abort.
Context `{Host}.

Lemma filesOnly_ret {A} (a : A) : filesOnly (ret a).
Proof. intros w w' E. split; [reflexivity | exact E]. Qed.

Lemma filesOnly_bind {A B} (m : M A) (k : A -> M B) :
  filesOnly m -> (forall a, filesOnly (k a)) -> filesOnly (bind m k).
Proof.
  intros Hm Hk w w' E. unfold bind. destruct (Hm w w' E) as [Hr Hf].
  destruct (m w) as [r v], (m w') as [r' v']. simpl in Hr, Hf. subst r'.
  destruct r as [a|e]; [apply Hk, Hf | split; [reflexivity | exact Hf]].
Qed.

Lemma filesOnly_tryCatch {A} (m : M A) (h : JsError -> M A) :
  filesOnly m -> (forall e, filesOnly (h e)) -> filesOnly (tryCatch m h).
Proof.
  intros Hm Hh w w' E. unfold tryCatch. destruct (Hm w w' E) as [Hr Hf].
  destruct (m w) as [r v], (m w') as [r' v']. simpl in Hr, Hf. subst r'.
  destruct r as [a|e]; [split; [reflexivity | exact Hf] | apply Hh, Hf].
Qed.

Lemma filesOnly_if {A} (b : bool) (x y : M A) :
  filesOnly x -> filesOnly y -> filesOnly (if b then x else y).
Proof. destruct b; auto. Qed.

Lemma filesOnly_log msg lvl : filesOnly (UpgradeLogger.log msg lvl).
Proof. intros w w' E. split; [reflexivity | exact E]. Qed.

Lemma filesOnly_existsSync path : filesOnly (Fs.existsSync path).
Proof. intros w w' E. unfold Fs.existsSync. simpl. rewrite E. done. Qed.

Lemma filesOnly_copyFileSync src dest : filesOnly (Fs.copyFileSync src dest).
Proof.
  intros w w' E. unfold Fs.copyFileSync, setFiles. rewrite E.
  destruct (files w !! src) as [[c|es]|]; [|done..].
  destruct (files w !! dest) as [[c'|es']|]; simpl; rewrite ?E; done.
Qed.

Lemma filesOnly_create : filesOnly PackageBackup.create.
Proof.
  unfold PackageBackup.create, UpgradeLogger.info, UpgradeLogger.success,
    UpgradeLogger.error.
  repeat first
    [ apply filesOnly_log | apply filesOnly_existsSync | apply filesOnly_copyFileSync
    | apply filesOnly_ret
    | apply filesOnly_bind; [| intros ?]
    | apply filesOnly_tryCatch; [| intros ?]
    | apply filesOnly_if ].
Qed.

Lemma create_result_files (w w' : World) :
  files w' = files w -> (PackageBackup.create w').1 = (PackageBackup.create w).1.
Proof. intros E. apply (filesOnly_create w w' E). Qed.

Lemma onlyLogged_log msg lvl : respects onlyLogged (UpgradeLogger.log msg lvl).
Proof. primitive. Qed.

Lemma onlyLogged_announce : respects onlyLogged ReactScriptsUpgrader.announce.
Proof. unfold ReactScriptsUpgrader.announce. settle. Qed.

Lemma sameMarkers_announce : respects sameMarkers ReactScriptsUpgrader.announce.
Proof. unfold ReactScriptsUpgrader.announce. settle. Qed.

Lemma sameSpawned_create : respects sameSpawned PackageBackup.create.
Proof. unfold PackageBackup.create. settle. Qed.

Lemma sameSpawned_restore : respects sameSpawned PackageBackup.restore.
Proof. unfold PackageBackup.restore. settle. Qed.

Lemma sameAt_create p :
  p <> "./package.json.backup" -> p <> "./package-lock.json.backup" ->
  respects (sameAt p) PackageBackup.create.
Proof.
  intros Hp Hq. unfold PackageBackup.create, PackageBackup.backupFile,
    PackageBackup.lockBackupFile.
  settle.
Qed.

Lemma markers_restore (w : World) :
  markers (logFile (PackageBackup.restore w).2)
  = (markers (logFile w) ++ [Restored])%list.
Proof.
  unfoldBackup. simpl.
  repeat case_match; simplify_eq/=; rewrite ?markers_snoc; simpl;
    rewrite ?app_nil_r; done.
Qed.
End Abort.

Section AbortRun.
Context `{Host}.

Lemma announce_runs (w : World) :
  exists wa, ReactScriptsUpgrader.announce w = (Val tt, wa) /\ onlyLogged w wa /\
             sameMarkers w wa.
Proof.
  pose proof (onlyLogged_announce w) as Ho.
  pose proof (sameMarkers_announce w) as Hm.
  destruct (ReactScriptsUpgrader.announce w) as [r wa] eqn:E.
  exists wa. simpl in *. split; [|done].
  unfold ReactScriptsUpgrader.announce, bind, UpgradeLogger.info, UpgradeLogger.log in E.
  simpl in E. congruence.
Qed.

(** When [create] fails, [performUpgrade] logs one more error and
    returns false. *)
Lemma performUpgrade_abort path (w : World) :
  (PackageBackup.create w).1 = Val false ->
  exists wa wc,
    ReactScriptsUpgrader.announce w = (Val tt, wa) /\
    PackageBackup.create wa = (Val false, wc) /\
    ReactScriptsUpgrader.performUpgrade path w
    = (Val false, (UpgradeLogger.error "Failed to create backup - aborting" wc).2).
Proof.
  intros Hc. destruct (announce_runs w) as (wa & Ha & (Hf & _ & _) & _).
  pose proof (create_result_files w wa Hf) as Hr. rewrite Hc in Hr.
  destruct (PackageBackup.create wa) as [r wc] eqn:E. simpl in Hr. subst r.
  exists wa, wc. split; [done|]. split; [done|].
  unfold ReactScriptsUpgrader.performUpgrade, bind. rewrite Ha, E. reflexivity.
Qed.
End AbortRun.

(** C1, as the code has it. When [create] fails at the start of a run,
    [performUpgrade] returns false at once: it launches no command, calls no
    [restore], and leaves the live manifest and lock file as they were. The
    driver [main] then calls [restore] once, as it does after every failed
    run, and exits with status 1. *)
Theorem abort_before_mutation `{Host} (path : list UpgradeStep) (w : World) :
  (PackageBackup.create w).1 = Val false ->
  let run := ReactScriptsUpgrader.performUpgrade path w in
  let whole := ReactScriptsUpgrader.main w in
  run.1 = Val false /\
  spawned run.2 = spawned w /\
  markers (logFile run.2) = markers (logFile w) /\
  files run.2 !! "./package.json" = files w !! "./package.json" /\
  files run.2 !! "./package-lock.json" = files w !! "./package-lock.json" /\
  whole.1 = Val 1%nat /\
  spawned whole.2 = spawned w /\
  markers (logFile whole.2) = (markers (logFile w) ++ [Restored])%list.
Proof.
  intros Hc run whole.
  assert (Hrun : forall (steps : list UpgradeStep) (w0 : World), files w0 = files w ->
            let r := ReactScriptsUpgrader.performUpgrade steps w0 in
            r.1 = Val false /\ spawned r.2 = spawned w0 /\
            markers (logFile r.2) = markers (logFile w0) /\
            files r.2 !! "./package.json" = files w0 !! "./package.json" /\
            files r.2 !! "./package-lock.json" = files w0 !! "./package-lock.json").
  { intros steps w0 Hf r. subst r.
    assert (Hc0 : (PackageBackup.create w0).1 = Val false)
      by (rewrite (create_result_files w w0 Hf); exact Hc).
    destruct (performUpgrade_abort steps w0 Hc0) as (wa & wc & Ha & Hcr & ->).
    destruct (announce_runs w0) as (wa' & Ha' & (Hfa & _ & Hsa) & Hma).
    rewrite Ha in Ha'. injection Ha' as <-.
    pose proof (sameSpawned_create wa) as Hs.
    pose proof (sameMarkers_create wa) as Hm.
    pose proof (sameAt_create "./package.json" ltac:(done) ltac:(done) wa) as Hp.
    pose proof (sameAt_create "./package-lock.json" ltac:(done) ltac:(done) wa) as Hl.
    rewrite Hcr in Hs, Hm, Hp, Hl.
    unfold sameSpawned, sameMarkers, sameAt in *. simpl in *.
    rewrite markers_snoc. simpl. rewrite app_nil_r.
    rewrite Hs, Hm, Hp, Hl, Hsa, Hma, Hfa. done. }
  destruct (Hrun path w eq_refl) as (R1 & R2 & R3 & R4 & R5).
  split; [exact R1|]. split; [exact R2|]. split; [exact R3|].
  split; [exact R4|]. split; [exact R5|].
  set (w0 := (UpgradeLogger.constructor w).2).
  destruct (Hrun ReactScriptsUpgrader.upgradePath w0 eq_refl) as (Q1 & Q2 & Q3 & _).
  destruct (ReactScriptsUpgrader.performUpgrade ReactScriptsUpgrader.upgradePath w0)
    as [r w1] eqn:E1. simpl in Q1, Q2, Q3. subst r.
  set (w2 := (UpgradeLogger.error "üí• Upgrade failed - restoring backup" w1).2).
  pose proof (markers_restore w2) as Hm.
  pose proof (sameSpawned_restore w2) as Hs.
  destruct (total_restore w2) as [b Hb].
  destruct (PackageBackup.restore w2) as [r w3] eqn:E2. simpl in Hm, Hs, Hb. subst r.
  assert (Hmain : whole = (Val 1%nat, w3)).
  { subst whole. unfold ReactScriptsUpgrader.main, tryCatch, bind.
    change (UpgradeLogger.constructor w) with (Val tt, w0).
    lazy beta iota. rewrite E1. lazy beta iota.
    change (UpgradeLogger.error "üí• Upgrade failed - restoring backup" w1)
      with (Val tt, w2).
    lazy beta iota. rewrite E2. reflexivity. }
  rewrite Hmain. simpl. unfold sameSpawned in Hs. rewrite Hm, Hs.
  subst w2. simpl. rewrite markers_snoc. simpl. rewrite app_nil_r, Q2, Q3.
  subst w0. simpl. rewrite markers_snoc. simpl. rewrite app_nil_r. done.
Qed.

Lemma abort_before_mutation_witness :
  (PackageBackup.create Demo.noManifest).1 = Val false /\
  (ReactScriptsUpgrader.performUpgrade ReactScriptsUpgrader.upgradePath Demo.noManifest).1
  = Val false /\
  (ReactScriptsUpgrader.main Demo.noManifest).1 = Val 1%nat.
Proof.
  assert (Hc : (PackageBackup.create Demo.noManifest).1 = Val false)
    by (vm_compute; reflexivity).
  split; [exact Hc|].
  destruct (abort_before_mutation ReactScriptsUpgrader.upgradePath Demo.noManifest Hc)
    as (R1 & _ & _ & _ & _ & R6 & _).
  split; [exact R1 | exact R6].
Defined.

(** C1 as stated fails: in a directory without manifest, [create] returns
    false and the run still performs a [restore], which here writes the
    backup of an earlier run as the live manifest. *)
Lemma abort_is_followed_by_restore :
  (PackageBackup.create Demo.noManifest).1 = Val false /\
  markers (logFile (ReactScriptsUpgrader.main Demo.noManifest).2) = [Restored] /\
  files Demo.noManifest !! "./package.json" = None /\
  files (ReactScriptsUpgrader.main Demo.noManifest).2 !! "./package.json"
  = Some (File "manifest of an earlier run").
Proof. vm_compute. repeat split. Qed.

(** ** The manifest edits *)

Section Edits.
Context `{Host}.

(** An edit that throws has written nothing. *)
Lemma updateHomepageUrl_try_throws (w w' : World) e :
  ReactScriptsUpgrader.updateHomepageUrl_try w = (Exn e, w') -> w' = w.
Proof.
  unfold ReactScriptsUpgrader.updateHomepageUrl_try, ReactScriptsUpgrader.parse,
    ReactScriptsUpgrader.assign, bind, ret, throw, Fs.readFileSync,
    Fs.writeFileSync, UpgradeLogger.success, UpgradeLogger.log.
  intros E. repeat case_match; simplify_eq/=; done.
Qed.

Lemma handleCompatibilityIssues_try_throws (w w' : World) e :
  ReactScriptsUpgrader.handleCompatibilityIssues_try w = (Exn e, w') -> w' = w.
Proof.
  unfold ReactScriptsUpgrader.handleCompatibilityIssues_try,
    ReactScriptsUpgrader.parse, ReactScriptsUpgrader.assign, bind, ret, throw,
    Fs.readFileSync, Fs.writeFileSync, UpgradeLogger.success, UpgradeLogger.log.
  intros E. repeat case_match; simplify_eq/=; done.
Qed.

(** When the backup was created, [performUpgrade] goes on with the loop,
    in the world the two edits leave. *)
Lemma performUpgrade_loop path (w : World) :
  (PackageBackup.create w).1 = Val true ->
  ReactScriptsUpgrader.performUpgrade path w
  = ReactScriptsUpgrader.tryUpgrades path (loopStart w).
Proof.
  intros Hc. unfold loopStart.
  destruct (announce_runs w) as (wa & Ha & (Hf & _ & _) & _).
  pose proof (create_result_files w wa Hf) as Hr. rewrite Hc in Hr.
  unfold ReactScriptsUpgrader.performUpgrade, bind at 1. rewrite Ha.
  unfold bind at 1. simpl.
  destruct (PackageBackup.create wa) as [r wc]. simpl in Hr. subst r. simpl.
  unfold ReactScriptsUpgrader.patchManifest, bind.
  destruct (total_updateHomepageUrl wc) as [[] E1].
  destruct (ReactScriptsUpgrader.updateHomepageUrl wc) as [r1 w1].
  simpl in E1. subst r1.
  destruct (total_handleCompatibilityIssues w1) as [[] E2].
  destruct (ReactScriptsUpgrader.handleCompatibilityIssues w1) as [r2 w2].
  simpl in E2. subst r2. reflexivity.
Qed.
End Edits.

(** C3, as the code has it. After the backup is created, neither manifest
    edit can stop the run: both methods return, and [performUpgrade] goes on
    with the loop over the steps in the world the edits leave. An edit that
    fails writes nothing; the failure of the homepage edit is logged at
    level ERROR, the failure of the browser-support edit at level WARN. *)
Theorem edit_failures_do_not_block `{Host} (path : list UpgradeStep) (w : World) :
  (PackageBackup.create w).1 = Val true ->
  let w1 := (PackageBackup.create (ReactScriptsUpgrader.announce w).2).2 in
  let h := ReactScriptsUpgrader.updateHomepageUrl w1 in
  let c := ReactScriptsUpgrader.handleCompatibilityIssues h.2 in
  h.1 = Val tt /\ c.1 = Val tt /\
  ReactScriptsUpgrader.performUpgrade path w
  = ReactScriptsUpgrader.tryUpgrades path c.2 /\
  (forall e w',
      ReactScriptsUpgrader.updateHomepageUrl_try
        (UpgradeLogger.info "Updating homepage URL for new repository name..." w1).2
      = (Exn e, w') ->
      files h.2 = files w1 /\
      logFile h.2
      = (logFile w1
           ++ [ mkEntry (toISOString (env w1)) INFO
                  "Updating homepage URL for new repository name...";
                mkEntry (toISOString (env w1)) ERROR
                  ("Failed to update homepage: " +:+ message e) ])%list) /\
  (forall e w',
      ReactScriptsUpgrader.handleCompatibilityIssues_try
        (UpgradeLogger.info "Checking for compatibility issues..." h.2).2
      = (Exn e, w') ->
      files c.2 = files h.2 /\
      logFile c.2
      = (logFile h.2
           ++ [ mkEntry (toISOString (env h.2)) INFO
                  "Checking for compatibility issues...";
                mkEntry (toISOString (env h.2)) WARN
                  ("Could not update browserslist: " +:+ message e) ])%list).
Proof.
  intros Hc w1 h c.
  destruct (total_updateHomepageUrl w1) as [[] Eh].
  destruct (total_handleCompatibilityIssues h.2) as [[] Ec].
  split; [exact Eh|]. split; [exact Ec|]. split.
  - rewrite (performUpgrade_loop path w Hc).
    unfold loopStart, ReactScriptsUpgrader.patchManifest, bind. fold w1.
    subst c h. destruct (ReactScriptsUpgrader.updateHomepageUrl w1) as [rh wh].
    simpl in Eh. subst rh. reflexivity.
  - split.
    + intros e w' Et. pose proof (updateHomepageUrl_try_throws _ _ _ Et) as ->.
      subst h. unfold ReactScriptsUpgrader.updateHomepageUrl, tryCatch, bind.
      change (UpgradeLogger.info "Updating homepage URL for new repository name..." w1)
        with (Val tt, (UpgradeLogger.info
                         "Updating homepage URL for new repository name..." w1).2).
      lazy beta iota. rewrite Et. simpl. rewrite <- app_assoc. done.
    + intros e w' Et.
      pose proof (handleCompatibilityIssues_try_throws _ _ _ Et) as ->.
      subst c. unfold ReactScriptsUpgrader.handleCompatibilityIssues, tryCatch, bind.
      change (UpgradeLogger.info "Checking for compatibility issues..." h.2)
        with (Val tt, (UpgradeLogger.info "Checking for compatibility issues..." h.2).2).
      lazy beta iota. rewrite Et. simpl. rewrite <- app_assoc. done.
Qed.

Lemma edit_failures_do_not_block_witness :
  (PackageBackup.create Demo.nullManifest).1 = Val true /\
  (ReactScriptsUpgrader.updateHomepageUrl
     (PackageBackup.create (ReactScriptsUpgrader.announce Demo.nullManifest).2).2).1
  = Val tt.
Proof.
  assert (Hc : (PackageBackup.create Demo.nullManifest).1 = Val true)
    by (vm_compute; reflexivity).
  split; [exact Hc|].
  destruct (edit_failures_do_not_block ReactScriptsUpgrader.upgradePath
              Demo.nullManifest Hc) as (R & _).
  exact R.
Defined.

(** C3 as stated fails: with the manifest [null] the homepage edit throws,
    and the two entries [updateHomepageUrl] writes are at levels INFO and
    ERROR; none is a warning. *)
Lemma homepage_failure_is_logged_as_error :
  let w1 := (PackageBackup.create
               (ReactScriptsUpgrader.announce Demo.nullManifest).2).2 in
  let h := ReactScriptsUpgrader.updateHomepageUrl w1 in
  (ReactScriptsUpgrader.updateHomepageUrl_try
     (UpgradeLogger.info "Updating homepage URL for new repository name..." w1).2).1
  = Exn (plainError "Cannot set properties of null (setting 'homepage')") /\
  map (fun e => (level e, text e)) (drop (length (logFile w1)) (logFile h.2))
  = [ (INFO, "Updating homepage URL for new repository name...");
      (ERROR, "Failed to update homepage: Cannot set properties of null (setting 'homepage')") ] /\
  ~ Exists (fun e => level e = WARN) (drop (length (logFile w1)) (logFile h.2)).
Proof.
  vm_compute. split; [reflexivity|]. split; [reflexivity|].
  intros Hex. repeat (apply Exists_cons in Hex as [Hex|Hex]; [discriminate|]).
  apply Exists_nil in Hex. exact Hex.
Qed.

(** ** The loop over the steps *)

Section Loop.
Context `{Host}.

Lemma sameMarkers_loopStart (w : World) :
  markers (logFile (loopStart w)) = markers (logFile w).
Proof.
  unfold loopStart.
  assert (Hp : respects sameMarkers ReactScriptsUpgrader.patchManifest).
  { unfold ReactScriptsUpgrader.patchManifest, ReactScriptsUpgrader.updateHomepageUrl,
      ReactScriptsUpgrader.updateHomepageUrl_try,
      ReactScriptsUpgrader.handleCompatibilityIssues,
      ReactScriptsUpgrader.handleCompatibilityIssues_try.
    settle. }
  rewrite (Hp _), (sameMarkers_create _). apply sameMarkers_announce.
Qed.

Lemma total_finishUpgrade s : total (ReactScriptsUpgrader.finishUpgrade s).
Proof.
  unfold ReactScriptsUpgrader.finishUpgrade.
  settleWith ltac:(first [ apply total_updateWorkflowForNewVersion
                         | apply total_installDependencies
                         | apply total_testBuild ]).
Qed.

Lemma sameMarkers_finishUpgrade s :
  respects sameMarkers (ReactScriptsUpgrader.finishUpgrade s).
Proof.
  unfold ReactScriptsUpgrader.finishUpgrade.
  settleWith ltac:(first [ apply sameMarkers_updateWorkflowForNewVersion
                         | apply sameMarkers_installDependencies
                         | apply sameMarkers_testBuild ]).
Qed.

Lemma fallBack_runs s (w : World) :
  (ReactScriptsUpgrader.fallBack s w).1 = Val tt /\
  markers (logFile (ReactScriptsUpgrader.fallBack s w).2)
  = (markers (logFile w) ++ [Restored])%list.
Proof.
  unfold ReactScriptsUpgrader.fallBack, bind, UpgradeLogger.warn, UpgradeLogger.log.
  lazy beta iota. set (w1 := mkWorld _ _ _ _).
  pose proof (markers_restore w1) as Hm.
  destruct (total_restore w1) as [b Hb].
  destruct (PackageBackup.restore w1) as [r w2]. simpl in Hm, Hb. subst r.
  pose proof (sameMarkers_installDependencies w2) as Hi.
  destruct (total_installDependencies w2) as [b' Hb'].
  destruct (ReactScriptsUpgrader.installDependencies w2) as [r w3].
  simpl in Hi, Hb'. subst r. simpl. split; [done|].
  unfold sameMarkers in Hi. rewrite Hi, Hm. subst w1. simpl.
  rewrite markers_snoc. simpl. rewrite app_nil_r. done.
Qed.

Lemma marker_attemptMessage t s :
  marker (mkEntry t INFO (ReactScriptsUpgrader.attemptMessage s))
  = Some (Attempted (ReactScriptsUpgrader.attemptMessage s)).
Proof. reflexivity. Qed.

(** One pass through the loop body: it never throws, and it leaves the
    marker of the attempt, followed by the marker of [restore] exactly
    when the loop goes on. *)
Lemma attempt_runs s (w w2 : World) r :
  ReactScriptsUpgrader.upgradeToVersion (version s) (description s)
    (UpgradeLogger.info (ReactScriptsUpgrader.attemptMessage s) w).2 = (r, w2) ->
  exists ok, r = Val ok /\
    (if ok : bool then
       exists b w3,
         ReactScriptsUpgrader.finishUpgrade s w2 = (Val b, w3) /\
         ReactScriptsUpgrader.attempt s w = (Val (Some b), w3) /\
         markers (logFile w3)
         = (markers (logFile w)
              ++ [Attempted (ReactScriptsUpgrader.attemptMessage s)])%list
     else
       exists w3,
         ReactScriptsUpgrader.fallBack s w2 = (Val tt, w3) /\
         ReactScriptsUpgrader.attempt s w = (Val None, w3) /\
         markers (logFile w3)
         = (markers (logFile w)
              ++ [Attempted (ReactScriptsUpgrader.attemptMessage s); Restored])%list).
Proof.
  intros Eu.
  assert (Hw1 : markers (logFile (UpgradeLogger.info
                                    (ReactScriptsUpgrader.attemptMessage s) w).2)
                = (markers (logFile w)
                     ++ [Attempted (ReactScriptsUpgrader.attemptMessage s)])%list).
  { simpl. rewrite markers_snoc, marker_attemptMessage. done. }
  pose proof (sameMarkers_upgradeToVersion (version s) (description s)
                (UpgradeLogger.info (ReactScriptsUpgrader.attemptMessage s) w).2) as Hu.
  destruct (total_upgradeToVersion (version s) (description s)
              (UpgradeLogger.info (ReactScriptsUpgrader.attemptMessage s) w).2)
    as [ok Hok].
  unfold sameMarkers in Hu. rewrite Eu in Hu, Hok. simpl in Hu, Hok. subst r.
  exists ok. split; [reflexivity|].
  assert (Ea : ReactScriptsUpgrader.attempt s w
               = (if ok
                  then result <- ReactScriptsUpgrader.finishUpgrade s ;;
                       ret (Some result)
                  else ReactScriptsUpgrader.fallBack s ;;; ret None) w2).
  { unfold ReactScriptsUpgrader.attempt. unfold bind at 1 2.
    change (UpgradeLogger.info (ReactScriptsUpgrader.attemptMessage s) w)
      with (Val tt, (UpgradeLogger.info (ReactScriptsUpgrader.attemptMessage s) w).2).
    lazy beta iota. rewrite Eu. reflexivity. }
  rewrite Ea. destruct ok.
  - pose proof (sameMarkers_finishUpgrade s w2) as Hf.
    destruct (total_finishUpgrade s w2) as [b Hb].
    unfold bind.
    destruct (ReactScriptsUpgrader.finishUpgrade s w2) as [r w3].
    simpl in Hf, Hb. subst r. unfold sameMarkers in Hf.
    exists b, w3. split; [done|]. split; [done|].
    etransitivity; [exact Hf|]. etransitivity; [exact Hu|]. exact Hw1.
  - destruct (fallBack_runs s w2) as [Hv Hm]. unfold bind.
    destruct (ReactScriptsUpgrader.fallBack s w2) as [r w3].
    simpl in Hv, Hm. subst r. exists w3. split; [done|]. split; [done|].
    rewrite Hm. etransitivity; [apply (f_equal (fun l => l ++ [Restored])%list);
      etransitivity; [exact Hu | exact Hw1]|].
    rewrite <- app_assoc. done.
Qed.


(** The markers one pass leaves, by its result. *)
Lemma markers_attempt s (w : World) :
  markers (logFile (ReactScriptsUpgrader.attempt s w).2)
  = (markers (logFile w)
       ++ Attempted (ReactScriptsUpgrader.attemptMessage s)
       :: match (ReactScriptsUpgrader.attempt s w).1 with
          | Val None => [Restored]
          | _ => []
          end)%list.
Proof.
  destruct (ReactScriptsUpgrader.upgradeToVersion (version s) (description s)
              (UpgradeLogger.info (ReactScriptsUpgrader.attemptMessage s) w).2)
    as [r w2] eqn:Eu.
  destruct (attempt_runs s w w2 r Eu) as (ok & _ & Hk). destruct ok.
  - destruct Hk as (b & w3 & _ & -> & Hm). exact Hm.
  - destruct Hk as (w3 & _ & -> & Hm). exact Hm.
Qed.

(** Steps that fall back are passed over. *)
Lemma tryUpgrades_skip pre rest (w : World) :
  allFallBack pre w ->
  ReactScriptsUpgrader.tryUpgrades (pre ++ rest) w
  = ReactScriptsUpgrader.tryUpgrades rest (afterAttempts pre w).
Proof.
  revert w. induction pre as [|s pre IH]; intros w Hall; [reflexivity|].
  destruct Hall as [Hs Hrest]. simpl. unfold bind at 1.
  destruct (ReactScriptsUpgrader.attempt s w) as [r w1]. simpl in Hs, Hrest.
  subst r. simpl. apply IH, Hrest.
Qed.

Lemma markers_afterAttempts pre (w : World) :
  allFallBack pre w ->
  markers (logFile (afterAttempts pre w))
  = (markers (logFile w)
       ++ flat_map (fun p => [Attempted (ReactScriptsUpgrader.attemptMessage p);
                              Restored]) pre)%list.
Proof.
  revert w. induction pre as [|s pre IH]; intros w Hall; simpl.
  - rewrite app_nil_r. reflexivity.
  - destruct Hall as [Hs Hrest]. rewrite (IH _ Hrest).
    rewrite markers_attempt, Hs, <- app_assoc. reflexivity.
Qed.

(** The step that ends the loop. *)
Lemma tryUpgrades_ends s rest (w : World) b :
  (ReactScriptsUpgrader.attempt s w).1 = Val (Some b) ->
  ReactScriptsUpgrader.tryUpgrades (s :: rest) w
  = (Val b, (ReactScriptsUpgrader.attempt s w).2).
Proof.
  intros Ha. simpl. unfold bind.
  destruct (ReactScriptsUpgrader.attempt s w) as [r w1]. simpl in Ha. subst r.
  reflexivity.
Qed.
End Loop.

(** ** Claims on the loop *)

(** C4, as the code has it. When each of the steps before step k fails its
    own verification (an installation or both builds fail, so that
    [upgradeToVersion] returns false) and step k passes its verification and
    the final one, the run returns true; it ends in the world the attempt of
    step k leaves, whatever steps follow in the path; and the log shows, in
    order, the attempt of each earlier step followed by a [restore], then the
    attempt of step k, and no other attempt or [restore]. *)
Theorem step_ordering `{Host} (pre : list UpgradeStep) (s : UpgradeStep)
        (post : list UpgradeStep) (w : World) :
  (PackageBackup.create w).1 = Val true ->
  allFallBack pre (loopStart w) ->
  (ReactScriptsUpgrader.attempt s (afterAttempts pre (loopStart w))).1
  = Val (Some true) ->
  ReactScriptsUpgrader.performUpgrade (pre ++ s :: post) w
  = (Val true, (ReactScriptsUpgrader.attempt s (afterAttempts pre (loopStart w))).2) /\
  markers (logFile (ReactScriptsUpgrader.performUpgrade (pre ++ s :: post) w).2)
  = (markers (logFile w) ++ trail pre s)%list.
Proof.
  intros Hc Hpre Hs.
  assert (E : ReactScriptsUpgrader.performUpgrade (pre ++ s :: post) w
              = (Val true,
                 (ReactScriptsUpgrader.attempt s (afterAttempts pre (loopStart w))).2)).
  { rewrite (performUpgrade_loop _ w Hc), (tryUpgrades_skip pre _ _ Hpre).
    apply tryUpgrades_ends, Hs. }
  split; [exact E|]. rewrite E. simpl.
  rewrite markers_attempt, Hs, (markers_afterAttempts pre _ Hpre),
    sameMarkers_loopStart.
  unfold trail. rewrite <- app_assoc. reflexivity.
Qed.

Lemma step_ordering_witness :
  ReactScriptsUpgrader.performUpgrade ([Demo.step500] ++ Demo.step501 :: [])
    (Demo.fresh Demo.only501 "4.0.3")
  = (Val true,
     (ReactScriptsUpgrader.attempt Demo.step501
        (afterAttempts [Demo.step500] (loopStart (Demo.fresh Demo.only501 "4.0.3")))).2) /\
  markers (logFile (ReactScriptsUpgrader.performUpgrade
                      ([Demo.step500] ++ Demo.step501 :: [])
                      (Demo.fresh Demo.only501 "4.0.3")).2)
  = (markers (logFile (Demo.fresh Demo.only501 "4.0.3"))
       ++ trail [Demo.step500] Demo.step501)%list.
Proof.
  apply (step_ordering (H:=Demo.only501) [Demo.step500] Demo.step501 []
           (Demo.fresh Demo.only501 "4.0.3")).
  - vm_compute. reflexivity.
  - split; [vm_compute; reflexivity | exact I].
  - vm_compute. reflexivity.
Defined.

(** C4 as stated fails. Under a host where every build passes except the
    legacy invocation on 5.0.0, the full verification of step 5.0.0 does not
    pass (its own build check passes, the final one fails), and that of step
    5.0.1 passes, whether it is tried in place of step 5.0.0 or after it.
    The run over the two steps returns false after attempting 5.0.0 only:
    no [restore], no attempt of 5.0.1. *)
Lemma first_passing_step_is_not_reached :
  let w := Demo.fresh Demo.legacyBreaksOn500 "4.0.3" in
  let run := ReactScriptsUpgrader.performUpgrade ReactScriptsUpgrader.upgradePath w in
  ReactScriptsUpgrader.upgradePath = [Demo.step500; Demo.step501] /\
  (ReactScriptsUpgrader.attempt Demo.step500 (loopStart w)).1 = Val (Some false) /\
  (ReactScriptsUpgrader.attempt Demo.step501 (loopStart w)).1 = Val (Some true) /\
  (ReactScriptsUpgrader.attempt Demo.step501
     (ReactScriptsUpgrader.attempt Demo.step500 (loopStart w)).2).1 = Val (Some true) /\
  run.1 = Val false /\
  markers (logFile run.2)
  = [Attempted (ReactScriptsUpgrader.attemptMessage Demo.step500)].
Proof. vm_compute. repeat split. Qed.

Section FinalTest.
Context `{Host}.

Lemma spawned_testBuild (w : World) :
  spawned (BuildTester.testBuild w).2
  = (spawned w ++ [BuildTester.legacyBuildCommand])%list.
Proof. apply (testBuild_spec w). Qed.

Lemma log_keeps_spawned msg lvl (w : World) :
  spawned (UpgradeLogger.log msg lvl w).2 = spawned w.
Proof. reflexivity. Qed.

(** The success branch: whatever [installDependencies] returned, the
    final test runs next and its verdict is the value of the branch. *)
Lemma finishUpgrade_runs s (w2 wd wt : World) ri rt :
  ReactScriptsUpgrader.installDependencies
    (ReactScriptsUpgrader.updateWorkflowForNewVersion
       (UpgradeLogger.success (ReactScriptsUpgrader.upgradedMessage s) w2).2).2
  = (ri, wd) ->
  BuildTester.testBuild (UpgradeLogger.info "Performing final build test..." wd).2
  = (rt, wt) ->
  exists b, rt = Val b /\
    (ReactScriptsUpgrader.finishUpgrade s w2).1 = Val b /\
    spawned (ReactScriptsUpgrader.finishUpgrade s w2).2
    = (spawned wd ++ [BuildTester.legacyBuildCommand])%list /\
    markers (logFile (ReactScriptsUpgrader.finishUpgrade s w2).2)
    = markers (logFile w2).
Proof.
  intros Ei Et.
  pose proof (sameMarkers_finishUpgrade s w2) as Hm.
  pose proof (spawned_testBuild
                (UpgradeLogger.info "Performing final build test..." wd).2) as Hs.
  destruct (total_testBuild
              (UpgradeLogger.info "Performing final build test..." wd).2) as [b Hb].
  rewrite Et in Hs, Hb. simpl in Hs, Hb. subst rt. exists b.
  split; [reflexivity|].
  destruct (total_installDependencies
              (ReactScriptsUpgrader.updateWorkflowForNewVersion
                 (UpgradeLogger.success (ReactScriptsUpgrader.upgradedMessage s) w2).2).2)
    as [bi Hbi].
  rewrite Ei in Hbi. simpl in Hbi. subst ri.
  destruct (total_updateWorkflowForNewVersion
              (UpgradeLogger.success (ReactScriptsUpgrader.upgradedMessage s) w2).2)
    as [[] Hw].
  assert (E : ReactScriptsUpgrader.finishUpgrade s w2
              = (if b
                 then UpgradeLogger.success "üéâ Upgrade completed successfully!" ;;;
                      UpgradeLogger.info ("Final version: React Scripts "
                                            +:+ version s) ;;;
                      ret true
                 else UpgradeLogger.error "Final build test failed" ;;; ret false) wt).
  { unfold ReactScriptsUpgrader.finishUpgrade. unfold bind at 1 2 3 4 5.
    change (UpgradeLogger.success (ReactScriptsUpgrader.upgradedMessage s) w2)
      with (Val tt, (UpgradeLogger.success
                       (ReactScriptsUpgrader.upgradedMessage s) w2).2).
    lazy beta iota.
    destruct (ReactScriptsUpgrader.updateWorkflowForNewVersion
                (UpgradeLogger.success (ReactScriptsUpgrader.upgradedMessage s) w2).2)
      as [ru wu].
    simpl in Hw, Ei. subst ru. lazy beta iota. rewrite Ei. lazy beta iota.
    change (UpgradeLogger.info "Performing final build test..." wd)
      with (Val tt, (UpgradeLogger.info "Performing final build test..." wd).2).
    lazy beta iota. rewrite Et. reflexivity. }
  split; [rewrite E; destruct b; reflexivity|].
  split; [rewrite E; destruct b; simpl; exact Hs|]. exact Hm.
Qed.
End FinalTest.

Section ReachedStep.
Context `{Host}.

(** A step reached after the steps of [pre] fell back, whose own
    verification passed: the run ends with it, on the verdict of the final
    test. *)
Lemma reached_step_runs pre s post (w w2 wd wt : World) ri rt :
  (PackageBackup.create w).1 = Val true ->
  allFallBack pre (loopStart w) ->
  ReactScriptsUpgrader.upgradeToVersion (version s) (description s)
    (UpgradeLogger.info (ReactScriptsUpgrader.attemptMessage s)
       (afterAttempts pre (loopStart w))).2 = (Val true, w2) ->
  ReactScriptsUpgrader.installDependencies
    (ReactScriptsUpgrader.updateWorkflowForNewVersion
       (UpgradeLogger.success (ReactScriptsUpgrader.upgradedMessage s) w2).2).2
  = (ri, wd) ->
  BuildTester.testBuild (UpgradeLogger.info "Performing final build test..." wd).2
  = (rt, wt) ->
  exists b, rt = Val b /\
    ReactScriptsUpgrader.performUpgrade (pre ++ s :: post) w
    = (Val b, (ReactScriptsUpgrader.finishUpgrade s w2).2) /\
    spawned (ReactScriptsUpgrader.finishUpgrade s w2).2
    = (spawned wd ++ [BuildTester.legacyBuildCommand])%list /\
    markers (logFile (ReactScriptsUpgrader.finishUpgrade s w2).2)
    = (markers (logFile w) ++ trail pre s)%list.
Proof.
  intros Hc Hpre Eu Ei Et.
  destruct (finishUpgrade_runs s w2 wd wt ri rt Ei Et) as (b & -> & Hb & Hs & Hm).
  exists b. split; [reflexivity|].
  destruct (attempt_runs s _ w2 _ Eu) as (ok & Hok & Hk).
  injection Hok as <-. destruct Hk as (b' & w3 & Ef & Ea & Hma).
  rewrite Ef in Hb, Hs, Hm |- *. simpl in Hb, Hs, Hm |- *.
  injection Hb as ->.
  split.
  - rewrite (performUpgrade_loop _ w Hc), (tryUpgrades_skip pre _ _ Hpre).
    rewrite (tryUpgrades_ends s post _ b); rewrite Ea; reflexivity.
  - split; [exact Hs|].
    rewrite Hma, (markers_afterAttempts pre _ Hpre), sameMarkers_loopStart.
    unfold trail. rewrite <- app_assoc. reflexivity.
Qed.
End ReachedStep.

(** C6. When a step is reached whose own verification passed, the legacy
    build command is launched once more, after the installation that
    follows the workflow patch and as the last command of the run; the run
    returns the verdict of this final test, true or false; no other step is
    attempted, whatever steps follow in the path. *)
Theorem final_verification_decides `{Host} (pre : list UpgradeStep) (s : UpgradeStep)
        (post : list UpgradeStep) (w w2 wd wt : World) ri rt :
  (PackageBackup.create w).1 = Val true ->
  allFallBack pre (loopStart w) ->
  ReactScriptsUpgrader.upgradeToVersion (version s) (description s)
    (UpgradeLogger.info (ReactScriptsUpgrader.attemptMessage s)
       (afterAttempts pre (loopStart w))).2 = (Val true, w2) ->
  ReactScriptsUpgrader.installDependencies
    (ReactScriptsUpgrader.updateWorkflowForNewVersion
       (UpgradeLogger.success (ReactScriptsUpgrader.upgradedMessage s) w2).2).2
  = (ri, wd) ->
  BuildTester.testBuild (UpgradeLogger.info "Performing final build test..." wd).2
  = (rt, wt) ->
  exists b, rt = Val b /\
    (ReactScriptsUpgrader.performUpgrade (pre ++ s :: post) w).1 = Val b /\
    ReactScriptsUpgrader.performUpgrade (pre ++ s :: post) w
    = ReactScriptsUpgrader.performUpgrade (pre ++ [s]) w /\
    spawned (ReactScriptsUpgrader.performUpgrade (pre ++ s :: post) w).2
    = (spawned wd ++ [BuildTester.legacyBuildCommand])%list /\
    markers (logFile (ReactScriptsUpgrader.performUpgrade (pre ++ s :: post) w).2)
    = (markers (logFile w) ++ trail pre s)%list.
Proof.
  intros Hc Hpre Eu Ei Et.
  destruct (reached_step_runs pre s post w w2 wd wt ri rt Hc Hpre Eu Ei Et)
    as (b & -> & E & Hs & Hm).
  destruct (reached_step_runs pre s [] w w2 wd wt ri (Val b) Hc Hpre Eu Ei Et)
    as (b' & Hb' & E' & _).
  injection Hb' as <-.
  exists b. split; [reflexivity|]. rewrite E, E'. simpl. auto.
Qed.

(** C9. On the success path of a step the value [installDependencies]
    returns, true or false, plays no part: the final test is launched next
    and the run returns its verdict. *)
Theorem install_result_is_ignored `{Host} (pre : list UpgradeStep) (s : UpgradeStep)
        (post : list UpgradeStep) (w w2 wd : World) (installed : bool) :
  (PackageBackup.create w).1 = Val true ->
  allFallBack pre (loopStart w) ->
  ReactScriptsUpgrader.upgradeToVersion (version s) (description s)
    (UpgradeLogger.info (ReactScriptsUpgrader.attemptMessage s)
       (afterAttempts pre (loopStart w))).2 = (Val true, w2) ->
  ReactScriptsUpgrader.installDependencies
    (ReactScriptsUpgrader.updateWorkflowForNewVersion
       (UpgradeLogger.success (ReactScriptsUpgrader.upgradedMessage s) w2).2).2
  = (Val installed, wd) ->
  (ReactScriptsUpgrader.performUpgrade (pre ++ s :: post) w).1
  = (BuildTester.testBuild
       (UpgradeLogger.info "Performing final build test..." wd).2).1 /\
  spawned (ReactScriptsUpgrader.performUpgrade (pre ++ s :: post) w).2
  = (spawned wd ++ [BuildTester.legacyBuildCommand])%list.
Proof.
  intros Hc Hpre Eu Ei.
  destruct (BuildTester.testBuild
              (UpgradeLogger.info "Performing final build test..." wd).2)
    as [rt wt] eqn:Et.
  destruct (reached_step_runs pre s post w w2 wd wt _ rt Hc Hpre Eu Ei Et)
    as (b & -> & E & Hs & _).
  rewrite E. simpl. auto.
Qed.

(** Under a host where the legacy build fails on 5.0.0, the run ends at the
    first step with the verdict false, and the second step changes nothing. *)
Lemma final_verification_decides_witness :
  (ReactScriptsUpgrader.performUpgrade ([] ++ Demo.step500 :: [Demo.step501])
     (Demo.fresh Demo.legacyBreaksOn500 "4.0.3")).1 = Val false /\
  ReactScriptsUpgrader.performUpgrade ([] ++ Demo.step500 :: [Demo.step501])
    (Demo.fresh Demo.legacyBreaksOn500 "4.0.3")
  = ReactScriptsUpgrader.performUpgrade ([] ++ [Demo.step500])
      (Demo.fresh Demo.legacyBreaksOn500 "4.0.3").
Proof.
  pose (w := Demo.fresh Demo.legacyBreaksOn500 "4.0.3").
  pose (u := ReactScriptsUpgrader.upgradeToVersion (version Demo.step500)
               (description Demo.step500)
               (UpgradeLogger.info (ReactScriptsUpgrader.attemptMessage Demo.step500)
                  (afterAttempts [] (loopStart w))).2).
  pose (i := ReactScriptsUpgrader.installDependencies
               (ReactScriptsUpgrader.updateWorkflowForNewVersion
                  (UpgradeLogger.success
                     (ReactScriptsUpgrader.upgradedMessage Demo.step500) u.2).2).2).
  pose (t := BuildTester.testBuild
               (UpgradeLogger.info "Performing final build test..." i.2).2).
  destruct (final_verification_decides (H:=Demo.legacyBreaksOn500)
              [] Demo.step500 [Demo.step501] w u.2 i.2 t.2 i.1 t.1)
    as (b & Hb & R1 & R2 & _).
  - vm_compute. reflexivity.
  - exact I.
  - vm_compute. reflexivity.
  - vm_compute. reflexivity.
  - vm_compute. reflexivity.
  - vm_compute in Hb. injection Hb as <-. split; [exact R1 | exact R2].
Defined.

(** Under a host where an installation takes four minutes, the
    installation on the success path is killed at its three-minute timeout
    and returns false; the run goes on to the final test and returns true. *)
Lemma install_result_is_ignored_witness :
  (ReactScriptsUpgrader.performUpgrade ([] ++ Demo.step500 :: [Demo.step501])
     (Demo.fresh Demo.slowInstall "4.0.3")).1 = Val true.
Proof.
  pose (w := Demo.fresh Demo.slowInstall "4.0.3").
  pose (u := ReactScriptsUpgrader.upgradeToVersion (version Demo.step500)
               (description Demo.step500)
               (UpgradeLogger.info (ReactScriptsUpgrader.attemptMessage Demo.step500)
                  (afterAttempts [] (loopStart w))).2).
  pose (i := ReactScriptsUpgrader.installDependencies
               (ReactScriptsUpgrader.updateWorkflowForNewVersion
                  (UpgradeLogger.success
                     (ReactScriptsUpgrader.upgradedMessage Demo.step500) u.2).2).2).
  destruct (install_result_is_ignored (H:=Demo.slowInstall)
              [] Demo.step500 [Demo.step501] w u.2 i.2 false)
    as (R & _).
  - vm_compute. reflexivity.
  - exact I.
  - vm_compute. reflexivity.
  - vm_compute. reflexivity.
  - etransitivity; [exact R|]. vm_compute. reflexivity.
Defined.

(** The two build strategies of a step. Once the installations of a step
    have succeeded, the modern build command is the first build launched.
    When it exits with status 0 the step succeeds and the Build Verifier is
    not called. When it fails, the Build Verifier is called next, it
    launches the legacy command, and its verdict is the result of the step. *)
Theorem strategy_fallback `{Host} (targetVersion description : string) (w wi : World) :
  ReactScriptsUpgrader.installVersion targetVersion
    (UpgradeLogger.info ("Starting upgrade to " +:+ description) w).2 = (Val tt, wi) ->
  let wb := (UpgradeLogger.info "Testing build after upgrade..." wi).2 in
  let modern := execSync ReactScriptsUpgrader.modernBuildCommand (Some 300000%N)
                  (env wb) (files wb) in
  let run := ReactScriptsUpgrader.upgradeToVersion targetVersion description w in
  match modern.1.1 with
  | Exited _ =>
      run.1 = Val true /\
      spawned run.2 = (spawned wb ++ [ReactScriptsUpgrader.modernBuildCommand])%list
  | Failed _ =>
      let wl := (UpgradeLogger.info
                   "Build failed without legacy provider, trying with legacy provider..."
                   (mkWorld modern.2 modern.1.2 (logFile wb)
                      (spawned wb ++ [ReactScriptsUpgrader.modernBuildCommand]))).2 in
      run.1 = (BuildTester.testBuild wl).1 /\
      spawned run.2
      = (spawned wb ++ [ReactScriptsUpgrader.modernBuildCommand;
                        BuildTester.legacyBuildCommand])%list
  end.
Proof.
  intros Hi wb modern run.
  assert (E : run = (buildPassed <- ReactScriptsUpgrader.verifyBuild ;;
                     if negb buildPassed then
                       UpgradeLogger.error ("Build failed with react-scripts@"
                                              +:+ targetVersion) ;;;
                       ret false
                     else
                       UpgradeLogger.success ("Build successful with react-scripts@"
                                                +:+ targetVersion) ;;;
                       ret true) wb
              \/ exists e w', (ReactScriptsUpgrader.verifyBuild wb) = (Exn e, w')).
  { subst run. unfold ReactScriptsUpgrader.upgradeToVersion.
    unfold bind at 1. unfold tryCatch. unfold bind at 1.
    change (UpgradeLogger.info ("Starting upgrade to " +:+ description) w)
      with (Val tt, (UpgradeLogger.info ("Starting upgrade to " +:+ description) w).2).
    lazy beta iota. rewrite Hi. lazy beta iota. unfold bind at 1.
    change (UpgradeLogger.info "Testing build after upgrade..." wi) with (Val tt, wb).
    lazy beta iota. unfold bind at 2.
    destruct (ReactScriptsUpgrader.verifyBuild wb) as [[b|e] w'] eqn:Ev.
    - left. unfold bind. rewrite Ev. destruct b; reflexivity.
    - right. eauto. }
  assert (Hv : ReactScriptsUpgrader.verifyBuild wb
               = match modern.1.1 with
                 | Exited _ =>
                     (Val true,
                      (UpgradeLogger.success
                         "Build successful without legacy OpenSSL provider"
                         (mkWorld modern.2 modern.1.2 (logFile wb)
                            (spawned wb ++ [ReactScriptsUpgrader.modernBuildCommand]))).2)
                 | Failed _ =>
                     BuildTester.testBuild
                       (UpgradeLogger.info
                          "Build failed without legacy provider, trying with legacy provider..."
                          (mkWorld modern.2 modern.1.2 (logFile wb)
                             (spawned wb ++ [ReactScriptsUpgrader.modernBuildCommand]))).2
                 end).
  { unfold ReactScriptsUpgrader.verifyBuild, tryCatch, bind, ChildProcess.run.
    subst modern. destruct (execSync _ _ _ _) as [[[out|e] env'] files']; reflexivity. }
  destruct (modern.1.1) as [out|e].
  - destruct E as [E | (e & w' & Ev)]; [|rewrite Hv in Ev; discriminate].
    rewrite E. unfold bind. rewrite Hv. simpl. done.
  - intros wl. fold wl in Hv.
    pose proof (spawned_testBuild wl) as Hs.
    destruct (total_testBuild wl) as [b Hb].
    destruct E as [E | (e' & w' & Ev)];
      [|rewrite Hv in Ev; rewrite Ev in Hb; discriminate].
    rewrite E. unfold bind. rewrite Hv.
    destruct (BuildTester.testBuild wl) as [rt wt]. simpl in Hs, Hb. subst rt.
    destruct b; simpl; rewrite Hs; subst wl; simpl; rewrite <- app_assoc; done.
Qed.

(** Under a host where only the legacy build passes, step 5.0.1 succeeds. *)
Lemma strategy_fallback_witness :
  (ReactScriptsUpgrader.upgradeToVersion "5.0.1" "React Scripts 5.0.1"
     (Demo.fresh Demo.legacyOnly "4.0.3")).1 = Val true.
Proof.
  pose (w := Demo.fresh Demo.legacyOnly "4.0.3").
  pose (i := ReactScriptsUpgrader.installVersion "5.0.1"
               (UpgradeLogger.info ("Starting upgrade to " +:+ "React Scripts 5.0.1") w).2).
  assert (Hi : i = (Val tt, i.2)) by (vm_compute; reflexivity).
  pose proof (strategy_fallback (H:=Demo.legacyOnly) "5.0.1" "React Scripts 5.0.1"
                w i.2 Hi) as R.
  vm_compute in R. destruct R as [R _].
  vm_compute. exact R.
Defined.

(** The result of a step in terms of the two build commands: when the
    modern command fails, the step succeeds exactly when the legacy command
    exits with status 0 and [./build] is then not a regular file. *)
Lemma legacy_fallback_verdict `{Host} (targetVersion description : string)
      (w wi : World) (e : JsError) :
  ReactScriptsUpgrader.installVersion targetVersion
    (UpgradeLogger.info ("Starting upgrade to " +:+ description) w).2 = (Val tt, wi) ->
  let wb := (UpgradeLogger.info "Testing build after upgrade..." wi).2 in
  let modern := execSync ReactScriptsUpgrader.modernBuildCommand (Some 300000%N)
                  (env wb) (files wb) in
  let legacy := execSync BuildTester.legacyBuildCommand (Some 300000%N)
                  modern.1.2 modern.2 in
  modern.1.1 = Failed e ->
  (ReactScriptsUpgrader.upgradeToVersion targetVersion description w).1
  = Val (match legacy.1.1 with
         | Exited _ =>
             match legacy.2 !! "./build" with
             | Some (File _) => false
             | _ => true
             end
         | Failed _ => false
         end).
Proof.
  intros Hi wb modern legacy Hm.
  pose proof (strategy_fallback targetVersion description w wi Hi) as R.
  cbv zeta in R. fold wb in R. fold modern in R. rewrite Hm in R.
  destruct R as [R _]. rewrite R.
  match goal with
  | |- (BuildTester.testBuild ?wl).1 = _ =>
      destruct (testBuild_spec wl) as (Hv & _); rewrite Hv
  end.
  reflexivity.
Qed.

(** C5, at the input where it fails. The modern build command fails, the
    legacy build command exits with status 0, and the project holds a
    regular file named [build]: the Build Verifier is called after the
    modern failure, as the claim says, but it returns false although the
    legacy build succeeded, and the step is recorded as failed. *)
Theorem legacy_success_step_fails :
  let w := Demo.project Demo.buildsElsewhereLegacyOnly "4.0.3"
             {[ "./package.json" := File "{}"; "./build" := File "#!/bin/sh" ]} in
  let run := ReactScriptsUpgrader.upgradeToVersion "5.0.1"
               "React Scripts 5.0.1 - Latest stable in 5.x" w in
  (execSync ReactScriptsUpgrader.modernBuildCommand (Some 300000%N) (env w) (files w)).1.1
  = Failed (Demo.exitFailure ReactScriptsUpgrader.modernBuildCommand) /\
  (execSync BuildTester.legacyBuildCommand (Some 300000%N) (env w) (files w)).1.1
  = Exited "done" /\
  run.1 = Val false /\
  files run.2 = files w /\
  spawned run.2
  = [ ReactScriptsUpgrader.cleanCommand;
      ReactScriptsUpgrader.installTargetCommand "5.0.1";
      ReactScriptsUpgrader.installCommand;
      ReactScriptsUpgrader.modernBuildCommand;
      BuildTester.legacyBuildCommand ] /\
  map (fun e => (level e, text e)) (drop 6 (logFile run.2))
  = [ (INFO, "Build failed without legacy provider, trying with legacy provider...");
      (INFO, "Testing build process...");
      (SUCCESS, "Build completed successfully");
      (INFO, "Build output length: 4 characters");
      (ERROR, "Build failed: ENOTDIR: not a directory, scandir './build'");
      (ERROR, "Build stderr: No stderr");
      (ERROR, "Build stdout: No stdout");
      (ERROR, "Build failed with react-scripts@5.0.1") ].
Proof. vm_compute. repeat split. Qed.

(** ** The workflow patch *)

Section Literal.
(** A literal pattern [lit], not empty, replaced everywhere by [rep]. *)
Variables (lit rep : string).
Hypothesis lit_not_empty : lit <> "".

Lemma length_app (a b : string) :
  String.length (a +:+ b) = String.length a + String.length b.
Proof. induction a as [|c a IH]; simpl; [reflexivity | rewrite IH; reflexivity]. Qed.

Lemma append_cons (x : ascii) (a b : string) :
  String x a +:+ b = String x (a +:+ b).
Proof. reflexivity. Qed.

Lemma string_app_assoc (a b c : string) : (a +:+ b) +:+ c = a +:+ (b +:+ c).
Proof.
  induction a as [|x a IH]; [reflexivity|].
  rewrite !append_cons, IH. reflexivity.
Qed.

Lemma stripPrefix_app (b : string) : Text.stripPrefix lit (lit +:+ b) = Some b.
Proof.
  clear lit_not_empty. induction lit as [|c l IH]; simpl; [reflexivity|].
  rewrite Ascii.eqb_refl. exact IH.
Qed.

Lemma matchLiteral_app (b : string) :
  Text.matchLiteral lit (lit +:+ b) = Some (String.length lit).
Proof. unfold Text.matchLiteral. rewrite stripPrefix_app. reflexivity. Qed.

Lemma matchLiteral_Some s n :
  Text.matchLiteral lit s = Some n -> exists k, n = S k /\ S k = String.length lit.
Proof.
  unfold Text.matchLiteral. destruct (Text.stripPrefix lit s); [|discriminate].
  intros [= <-]. destruct lit as [|c l]; [congruence|]. simpl. eauto.
Qed.

(** Passing over the characters of a match. *)
Lemma replaceAllFrom_skip (x b : string) :
  Text.replaceAllFrom (Text.matchLiteral lit) rep (String.length x) (x +:+ b)
  = Text.replaceAllFrom (Text.matchLiteral lit) rep 0 b.
Proof. induction x as [|c x IH]; simpl; [destruct b; reflexivity | exact IH]. Qed.

(** The leftmost occurrence is replaced and the search goes on after it. *)
Lemma replaceAll_leftmost (a b : string) :
  (forall i, i < String.length a ->
             Text.matchLiteral lit (Text.dropChars i (a +:+ lit +:+ b)) = None) ->
  Text.replaceAll (Text.matchLiteral lit) rep (a +:+ lit +:+ b)
  = a +:+ rep +:+ Text.replaceAll (Text.matchLiteral lit) rep b.
Proof.
  unfold Text.replaceAll. induction a as [|c a IH]; intros Hno.
  - change ("" +:+ lit +:+ b) with (lit +:+ b).
    change ("" +:+ rep +:+ Text.replaceAllFrom (Text.matchLiteral lit) rep 0 b)
      with (rep +:+ Text.replaceAllFrom (Text.matchLiteral lit) rep 0 b).
    pose proof (matchLiteral_app b) as Hm.
    destruct (lit +:+ b) as [|c s] eqn:Eb.
    { destruct lit; [congruence | discriminate]. }
    destruct lit as [|c' l] eqn:El; [congruence|].
    injection Eb as -> <-.
    cbn [Text.replaceAllFrom]. rewrite Hm. cbn [String.length].
    rewrite <- El at 1. f_equal. rewrite El.
    assert (Hsk := replaceAllFrom_skip l b). rewrite El in Hsk. exact Hsk.
  - pose proof (Hno 0 ltac:(simpl; lia)) as H0.
    change (Text.dropChars 0 (String c a +:+ lit +:+ b))
      with (String c (a +:+ lit +:+ b)) in H0.
    change (String c a +:+ lit +:+ b) with (String c (a +:+ lit +:+ b)).
    cbn [Text.replaceAllFrom]. rewrite H0.
    change (String c a +:+ rep +:+ Text.replaceAllFrom (Text.matchLiteral lit) rep 0 b)
      with (String c (a +:+ rep +:+ Text.replaceAllFrom (Text.matchLiteral lit) rep 0 b)).
    f_equal. apply IH.
    intros i Hi. apply (Hno (S i)). simpl. lia.
Qed.

(** The result is never shorter than what the matches leave. *)
Lemma replaceAllFrom_length (k : nat) (s : string) :
  String.length lit <= String.length rep ->
  String.length s
  <= String.length (Text.replaceAllFrom (Text.matchLiteral lit) rep k s) + k.
Proof.
  intros Hlen. revert k. induction s as [|c s IH]; intros k.
  - destruct k; simpl; [|lia]. destruct (Text.matchLiteral lit ""); simpl; lia.
  - destruct k as [|k]; simpl.
    + destruct (Text.matchLiteral lit (String c s)) as [n|] eqn:Em.
      * destruct (matchLiteral_Some _ _ Em) as (j & -> & Hj).
        rewrite length_app. specialize (IH j). lia.
      * simpl. specialize (IH 0). lia.
    + specialize (IH k). lia.
Qed.

(** A text that holds the pattern grows when the replacement is longer. *)
Lemma replaceAll_grows (s : string) :
  String.length lit < String.length rep ->
  Text.occurs lit s = true ->
  String.length s < String.length (Text.replaceAll (Text.matchLiteral lit) rep s).
Proof.
  intros Hlen. unfold Text.replaceAll. induction s as [|c s IH]; simpl.
  - destruct (Text.matchLiteral lit "") as [n|] eqn:Em; [|discriminate].
    intros _. destruct (matchLiteral_Some _ _ Em) as (j & -> & Hj).
    rewrite length_app. simpl. lia.
  - destruct (Text.matchLiteral lit (String c s)) as [n|] eqn:Em.
    + intros _. destruct (matchLiteral_Some _ _ Em) as (j & -> & Hj).
      rewrite length_app.
      pose proof (replaceAllFrom_length j s ltac:(lia)). lia.
    + intros Ho. simpl. specialize (IH Ho). lia.
Qed.

(** When the replacement starts with the pattern, the result of a
    replacement holds the pattern again. *)
Lemma replaceAll_occurs (s : string) :
  (exists tail, rep = lit +:+ tail) ->
  Text.occurs lit s = true ->
  Text.occurs lit (Text.replaceAll (Text.matchLiteral lit) rep s) = true.
Proof.
  intros [tail ->]. unfold Text.replaceAll.
  assert (Hhead : forall x, Text.occurs lit ((lit +:+ tail) +:+ x) = true).
  { intros x. rewrite string_app_assoc.
    pose proof (matchLiteral_app (tail +:+ x)) as Hm.
    destruct (lit +:+ tail +:+ x); simpl; rewrite Hm; reflexivity. }
  induction s as [|c s IH]; simpl.
  - destruct (Text.matchLiteral lit "") as [n|] eqn:Em; [|discriminate].
    intros _. destruct n; apply Hhead.
  - destruct (Text.matchLiteral lit (String c s)) as [n|] eqn:Em.
    + intros _. destruct n; apply Hhead.
    + intros Ho. cbn [Text.occurs]. clear Em.
      match goal with
      | |- match ?m with Some _ => true | None => _ end = true =>
          destruct m; [reflexivity | apply IH, Ho]
      end.
Qed.
End Literal.

Section WorkflowFile.
Context `{Host}.

(** On a workflow file that is there, the method writes the patched text
    back. *)
Lemma updateWorkflow_patches (w : World) (workflow : string) :
  files w !! ReactScriptsUpgrader.workflowPath = Some (File workflow) ->
  files (ReactScriptsUpgrader.updateWorkflowForNewVersion w).2
  = <[ReactScriptsUpgrader.workflowPath
      := File (ReactScriptsUpgrader.patchWorkflow workflow)]> (files w).
Proof.
  intros Hw.
  unfold ReactScriptsUpgrader.updateWorkflowForNewVersion, tryCatch, bind,
    UpgradeLogger.info, UpgradeLogger.success, UpgradeLogger.warn,
    UpgradeLogger.log, Fs.existsSync, Fs.readFileSync, Fs.writeFileSync.
  simpl. rewrite Hw, bool_decide_eq_true_2 by eauto.
  simpl. rewrite Hw. simpl. rewrite Hw. reflexivity.
Qed.
End WorkflowFile.

(** C10. The rename replaces the leftmost occurrence of [claude-sequencer]
    and goes on after it, so every occurrence is replaced, also the one at
    the head of [claude-sequencer64], which becomes [claude-sequencer6464].
    On every text that holds the token, renaming the renamed text gives yet
    another text; so the patch of a workflow is not idempotent, and running
    the method twice on a workflow file that holds the token leaves another
    file than running it once. *)
Theorem workflow_rename_not_idempotent :
  ReactScriptsUpgrader.renameToken "claude-sequencer64" = "claude-sequencer6464" /\
  (forall a b : string,
      (forall i, i < String.length a ->
                 Text.matchLiteral "claude-sequencer"
                   (Text.dropChars i (a +:+ "claude-sequencer" +:+ b)) = None) ->
      ReactScriptsUpgrader.renameToken (a +:+ "claude-sequencer" +:+ b)
      = a +:+ "claude-sequencer64" +:+ ReactScriptsUpgrader.renameToken b) /\
  (forall t : string,
      Text.occurs "claude-sequencer" t = true ->
      ReactScriptsUpgrader.renameToken (ReactScriptsUpgrader.renameToken t)
      <> ReactScriptsUpgrader.renameToken t) /\
  ReactScriptsUpgrader.patchWorkflow (ReactScriptsUpgrader.patchWorkflow Demo.deployYml)
  <> ReactScriptsUpgrader.patchWorkflow Demo.deployYml /\
  (forall (H : Host) (w : World),
      files w !! ReactScriptsUpgrader.workflowPath = Some (File Demo.deployYml) ->
      files (ReactScriptsUpgrader.updateWorkflowForNewVersion
               (ReactScriptsUpgrader.updateWorkflowForNewVersion w).2).2
      !! ReactScriptsUpgrader.workflowPath
      <> files (ReactScriptsUpgrader.updateWorkflowForNewVersion w).2
         !! ReactScriptsUpgrader.workflowPath).
Proof.
  assert (Hne : "claude-sequencer" <> "") by discriminate.
  assert (Hpatch : ReactScriptsUpgrader.patchWorkflow
                     (ReactScriptsUpgrader.patchWorkflow Demo.deployYml)
                   <> ReactScriptsUpgrader.patchWorkflow Demo.deployYml).
  { vm_compute. discriminate. }
  split; [vm_compute; reflexivity|].
  split; [intros a b Hno; apply (replaceAll_leftmost _ _ Hne a b Hno)|].
  split.
  - intros t Ht E.
    pose proof (replaceAll_occurs "claude-sequencer" "claude-sequencer64" t
                  (ex_intro _ "64" eq_refl) Ht) as Ho.
    pose proof (replaceAll_grows "claude-sequencer" "claude-sequencer64" Hne _
                  ltac:(simpl; lia) Ho) as Hg.
    unfold ReactScriptsUpgrader.renameToken in E. rewrite E in Hg. lia.
  - split; [exact Hpatch|].
    intros H w Hw.
    rewrite (updateWorkflow_patches _ (ReactScriptsUpgrader.patchWorkflow Demo.deployYml)).
    + rewrite (updateWorkflow_patches w Demo.deployYml Hw).
      rewrite !lookup_insert_eq. intros E. apply Hpatch. congruence.
    + rewrite (updateWorkflow_patches w Demo.deployYml Hw).
      apply lookup_insert_eq.
Qed.

Lemma workflow_rename_not_idempotent_witness :
  ReactScriptsUpgrader.renameToken
    (ReactScriptsUpgrader.renameToken "path: claude-sequencer/build")
  <> ReactScriptsUpgrader.renameToken "path: claude-sequencer/build".
Proof.
  destruct workflow_rename_not_idempotent as (_ & _ & R & _).
  apply R. vm_compute. reflexivity.
Defined.

(** * Further properties of the scripts *)

(** ** The Backup Manager, case by case *)

Section FsSteps.
Context `{Host}.

Lemma copyFileSync_done src dest c (w : World) :
  files w !! src = Some (File c) ->
  (forall es, files w !! dest <> Some (Dir es)) ->
  Fs.copyFileSync src dest w = (Val tt, setFiles (<[dest := File c]> (files w)) w).
Proof.
  intros Hs Hd. unfold Fs.copyFileSync. rewrite Hs.
  destruct (files w !! dest) as [[c'|es]|] eqn:E; try reflexivity.
  exfalso. eapply Hd. reflexivity.
Qed.

Lemma copyFileSync_refused src dest (w : World) :
  (forall c, files w !! src <> Some (File c)) \/
  (exists es, files w !! dest = Some (Dir es)) ->
  exists e, Fs.copyFileSync src dest w = (Exn e, w).
Proof.
  intros Hbad. unfold Fs.copyFileSync.
  destruct (files w !! src) as [[c|es]|] eqn:Es; try (eexists; reflexivity).
  destruct (files w !! dest) as [[c'|es]|] eqn:Ed; try (eexists; reflexivity).
  - destruct Hbad as [Hb | [es Hb]]; [exfalso; eapply Hb; reflexivity | discriminate].
  - destruct Hbad as [Hb | [es Hb]]; [exfalso; eapply Hb; reflexivity | discriminate].
Qed.
End FsSteps.

(** X1. [create] returns true exactly when the manifest is a regular file, the
    manifest backup path is not a directory, and the lock file is either
    absent or a regular file whose backup path is not a directory. *)
Theorem create_succeeds_iff `{Host} (w : World) :
  (PackageBackup.create w).1 = Val true <->
  (exists m, files w !! "./package.json" = Some (File m)) /\
  (forall es, files w !! "./package.json.backup" <> Some (Dir es)) /\
  (files w !! "./package-lock.json" = None \/
   ((exists l, files w !! "./package-lock.json" = Some (File l)) /\
    forall es, files w !! "./package-lock.json.backup" <> Some (Dir es))).
Proof.
  unfoldBackup. simpl.
  destruct (files w !! "./package.json") as [[m|es]|] eqn:Em; simpl;
    [| split; [discriminate | intros ([m Hm] & _); discriminate]..].
  destruct (files w !! "./package.json.backup") as [[c|es]|] eqn:Eb; simpl;
    try (split; [discriminate | intros (_ & Hd & _); exfalso; eapply Hd; eauto]).
  all: rewrite !lookup_insert_ne by done.
  all: destruct (files w !! "./package-lock.json") as [[l|es]|] eqn:El; simpl.
  all: try (rewrite bool_decide_eq_true_2 by eauto).
  all: try (rewrite bool_decide_eq_false_2 by (intros [? ?]; discriminate)).
  all: simpl; rewrite ?lookup_insert_ne by done; rewrite ?El; simpl.
  all: try (destruct (files w !! "./package-lock.json.backup") as [[c'|es']|] eqn:Elb;
            simpl).
  all: split; [intros E; try discriminate E | intros (_ & _ & Hl)].
  all: try (split; [eauto|]; split; [intros ? ?; discriminate|]).
  all: try solve [left; reflexivity].
  all: try solve [right; split; [eauto | intros ? ?; discriminate]].
  all: try reflexivity.
  all: try (destruct Hl as [Hl | [[? Hl] Hd]]; try discriminate;
            exfalso; eapply Hd; eauto).
Qed.

(** X2. [create] writes the two backup paths only: whatever it returns, every
    other path of the project is as before, no command was launched and the
    environment is untouched. *)
Theorem create_leaves_project `{Host} (w : World) (p : string) :
  p <> "./package.json.backup" ->
  p <> "./package-lock.json.backup" ->
  files (PackageBackup.create w).2 !! p = files w !! p /\
  spawned (PackageBackup.create w).2 = spawned w /\
  env (PackageBackup.create w).2 = env w.
Proof.
  intros Hp Hq. split; [apply (sameAt_create p Hp Hq w)|].
  split; [apply sameSpawned_create|].
  assert (He : respects sameEnv PackageBackup.create)
    by (unfold PackageBackup.create; settle).
  apply He.
Qed.

Lemma create_leaves_project_witness :
  files (PackageBackup.create (Demo.fresh Demo.offline "4.0.3")).2 !! "./package.json"
  = files (Demo.fresh Demo.offline "4.0.3") !! "./package.json" /\
  spawned (PackageBackup.create (Demo.fresh Demo.offline "4.0.3")).2
  = spawned (Demo.fresh Demo.offline "4.0.3") /\
  env (PackageBackup.create (Demo.fresh Demo.offline "4.0.3")).2
  = env (Demo.fresh Demo.offline "4.0.3").
Proof.
  apply (create_leaves_project (H:=Demo.offline) (Demo.fresh Demo.offline "4.0.3")
           "./package.json"); discriminate.
Defined.

(** X3. [create] is not atomic. When the manifest is a regular file and its
    backup path is not a directory, the manifest backup holds the manifest
    after the call, whatever the call returns; so a call that fails on the
    lock file (here a directory) returns false and has still replaced the
    manifest backup of an earlier snapshot. *)
Theorem failed_create_replaces_backup `{Host} (w : World) (m : string) :
  files w !! "./package.json" = Some (File m) ->
  (forall es, files w !! "./package.json.backup" <> Some (Dir es)) ->
  files (PackageBackup.create w).2 !! "./package.json.backup" = Some (File m) /\
  (forall es, files w !! "./package-lock.json" = Some (Dir es) ->
              (PackageBackup.create w).1 = Val false).
Proof.
  intros Hm Hd. unfoldBackup. simpl. rewrite Hm.
  destruct (files w !! "./package.json.backup") as [[c|es]|] eqn:Eb;
    [| exfalso; eapply Hd; reflexivity |]; simpl.
  all: rewrite !lookup_insert_ne by done.
  all: destruct (files w !! "./package-lock.json") as [[l|es]|] eqn:El; simpl.
  all: try (rewrite bool_decide_eq_true_2 by eauto).
  all: try (rewrite bool_decide_eq_false_2 by (intros [? ?]; discriminate)).
  all: simpl; rewrite ?lookup_insert_ne by done; rewrite ?El; simpl.
  all: try (destruct (files w !! "./package-lock.json.backup") as [[c'|es']|] eqn:Elb;
            simpl).
  all: split; [simplify_map_eq; done | intros ? ?; simplify_eq; done].
Qed.

Lemma failed_create_replaces_backup_witness :
  files (PackageBackup.create Demo.lockIsDirectory).2 !! "./package.json.backup"
  = Some (File "{}") /\
  (forall es, files Demo.lockIsDirectory !! "./package-lock.json" = Some (Dir es) ->
              (PackageBackup.create Demo.lockIsDirectory).1 = Val false).
Proof.
  apply (failed_create_replaces_backup (H:=Demo.offline) Demo.lockIsDirectory "{}").
  - vm_compute. reflexivity.
  - intros es. vm_compute. discriminate.
Defined.

(** X4. Without a manifest backup, [restore] returns false, writes nothing,
    launches nothing and logs the failure as an error. *)
Theorem restore_without_backup `{Host} (w : World) :
  files w !! "./package.json.backup" = None ->
  (PackageBackup.restore w).1 = Val false /\
  files (PackageBackup.restore w).2 = files w /\
  spawned (PackageBackup.restore w).2 = spawned w /\
  map level (drop (length (logFile w)) (logFile (PackageBackup.restore w).2))
  = [INFO; ERROR].
Proof.
  intros Hb. unfoldBackup. simpl. rewrite Hb. simpl.
  rewrite <- app_assoc, drop_app_length. done.
Qed.

Lemma restore_without_backup_witness :
  (PackageBackup.restore (Demo.fresh Demo.offline "4.0.3")).1 = Val false /\
  files (PackageBackup.restore (Demo.fresh Demo.offline "4.0.3")).2
  = files (Demo.fresh Demo.offline "4.0.3").
Proof.
  destruct (restore_without_backup (H:=Demo.offline) (Demo.fresh Demo.offline "4.0.3"))
    as (R1 & R2 & _).
  - vm_compute. reflexivity.
  - split; [exact R1 | exact R2].
Defined.

(** X5. [restore] removes nothing. When the snapshot holds no lock file (no
    lock backup exists), a lock file written since then stays in place:
    [restore] returns true with the manifest restored and the lock path
    as it found it. *)
Theorem restore_keeps_later_lock `{Host} (w : World) (m : string) :
  files w !! "./package.json.backup" = Some (File m) ->
  (forall es, files w !! "./package.json" <> Some (Dir es)) ->
  files w !! "./package-lock.json.backup" = None ->
  (PackageBackup.restore w).1 = Val true /\
  files (PackageBackup.restore w).2 !! "./package.json" = Some (File m) /\
  files (PackageBackup.restore w).2 !! "./package-lock.json"
  = files w !! "./package-lock.json".
Proof.
  intros Hb Hd Hl.
  destruct (restore_files w m Hb Hd) as (b & w' & E & Hm & _ & Hno & _).
  rewrite E. simpl. destruct (Hno Hl) as [-> Hk]. auto.
Qed.

Lemma restore_keeps_later_lock_witness :
  let w := Demo.project Demo.offline "5.0.1"
             {[ "./package.json" := File "upgraded";
                "./package-lock.json" := File "lock-5.0.1";
                "./package.json.backup" := File "{}" ]} in
  (PackageBackup.restore w).1 = Val true /\
  files (PackageBackup.restore w).2 !! "./package.json" = Some (File "{}") /\
  files (PackageBackup.restore w).2 !! "./package-lock.json"
  = files w !! "./package-lock.json".
Proof.
  intros w. apply (restore_keeps_later_lock (H:=Demo.offline) w "{}").
  - vm_compute. reflexivity.
  - intros es. vm_compute. discriminate.
  - vm_compute. reflexivity.
Defined.

Ltac unfoldCleanup :=
  unfold PackageBackup.cleanup, PackageBackup.backupFile,
    PackageBackup.lockBackupFile, tryCatch, bind, ret, throw,
    UpgradeLogger.info, UpgradeLogger.warn, UpgradeLogger.log,
    Fs.unlinkSync, Fs.existsSync, setFiles in *.

Section Cleanup.
Context `{Host}.

Lemma cleanup_files (w : World) :
  (forall es, files w !! "./package.json.backup" <> Some (Dir es)) ->
  (forall es, files w !! "./package-lock.json.backup" <> Some (Dir es)) ->
  (PackageBackup.cleanup w).1 = Val tt /\
  files (PackageBackup.cleanup w).2 !! "./package.json.backup" = None /\
  files (PackageBackup.cleanup w).2 !! "./package-lock.json.backup" = None /\
  (forall p, p <> "./package.json.backup" -> p <> "./package-lock.json.backup" ->
             files (PackageBackup.cleanup w).2 !! p = files w !! p).
Proof.
  intros Hb Hl. unfoldCleanup. simpl.
  destruct (files w !! "./package.json.backup") as [[c|es]|] eqn:Eb;
    [| exfalso; eapply Hb; reflexivity |]; simpl.
  all: try (rewrite bool_decide_eq_true_2 by eauto).
  all: try (rewrite bool_decide_eq_false_2 by (intros [? ?]; discriminate)).
  all: simpl; rewrite ?Eb; simpl; rewrite ?lookup_delete_ne by done.
  all: destruct (files w !! "./package-lock.json.backup") as [[c'|es']|] eqn:El;
    [| exfalso; eapply Hl; reflexivity |]; simpl.
  all: try (rewrite bool_decide_eq_true_2 by eauto).
  all: try (rewrite bool_decide_eq_false_2 by (intros [? ?]; discriminate)).
  all: simpl; rewrite ?lookup_delete_ne by done; rewrite ?El; simpl.
  all: repeat split; try done; intros; simplify_map_eq; done.
Qed.
End Cleanup.

(** X6. When neither backup path is a directory, [cleanup] leaves no backup
    behind and touches nothing else. *)
Theorem cleanup_removes_backups `{Host} (w : World) :
  (forall es, files w !! "./package.json.backup" <> Some (Dir es)) ->
  (forall es, files w !! "./package-lock.json.backup" <> Some (Dir es)) ->
  (PackageBackup.cleanup w).1 = Val tt /\
  files (PackageBackup.cleanup w).2 !! "./package.json.backup" = None /\
  files (PackageBackup.cleanup w).2 !! "./package-lock.json.backup" = None /\
  (forall p, p <> "./package.json.backup" -> p <> "./package-lock.json.backup" ->
             files (PackageBackup.cleanup w).2 !! p = files w !! p).
Proof. apply cleanup_files. Qed.

Lemma cleanup_removes_backups_witness :
  (PackageBackup.cleanup (Demo.backedUp Demo.offline "4.0.3")).1 = Val tt /\
  files (PackageBackup.cleanup (Demo.backedUp Demo.offline "4.0.3")).2
  !! "./package.json.backup" = None /\
  files (PackageBackup.cleanup (Demo.backedUp Demo.offline "4.0.3")).2
  !! "./package-lock.json.backup" = None.
Proof.
  destruct (cleanup_removes_backups (H:=Demo.offline) (Demo.backedUp Demo.offline "4.0.3"))
    as (R1 & R2 & R3 & _).
  - intros es. vm_compute. discriminate.
  - intros es. vm_compute. discriminate.
  - split; [exact R1|]. split; [exact R2 | exact R3].
Defined.

(** X7. [cleanup] stops at the first deletion that fails: when the manifest
    backup path is a directory, it logs one warning and leaves every file,
    the lock backup included, in place. *)
Theorem cleanup_stops_at_directory `{Host} (w : World) (es : list string) :
  files w !! "./package.json.backup" = Some (Dir es) ->
  (PackageBackup.cleanup w).1 = Val tt /\
  files (PackageBackup.cleanup w).2 = files w /\
  map level (drop (length (logFile w)) (logFile (PackageBackup.cleanup w).2)) = [WARN].
Proof.
  intros Hb. unfoldCleanup. simpl. rewrite Hb.
  rewrite bool_decide_eq_true_2 by eauto. simpl. rewrite Hb. simpl.
  rewrite drop_app_length. done.
Qed.

Lemma cleanup_stops_at_directory_witness :
  let w := Demo.project Demo.offline "4.0.3"
             {[ "./package.json.backup" := Dir ["x"];
                "./package-lock.json.backup" := File "lock-4.0.3" ]} in
  (PackageBackup.cleanup w).1 = Val tt /\
  files (PackageBackup.cleanup w).2 = files w /\
  map level (drop (length (logFile w)) (logFile (PackageBackup.cleanup w).2)) = [WARN].
Proof.
  intros w. apply (cleanup_stops_at_directory (H:=Demo.offline) w ["x"]).
  vm_compute. reflexivity.
Defined.

(** X8. After [cleanup] there is nothing to restore: [restore] returns false
    and the project files stay as [cleanup] left them. *)
Theorem restore_after_cleanup `{Host} (w : World) :
  (forall es, files w !! "./package.json.backup" <> Some (Dir es)) ->
  (forall es, files w !! "./package-lock.json.backup" <> Some (Dir es)) ->
  (PackageBackup.restore (PackageBackup.cleanup w).2).1 = Val false /\
  files (PackageBackup.restore (PackageBackup.cleanup w).2).2
  = files (PackageBackup.cleanup w).2 /\
  forall p, p <> "./package.json.backup" -> p <> "./package-lock.json.backup" ->
            files (PackageBackup.restore (PackageBackup.cleanup w).2).2 !! p
            = files w !! p.
Proof.
  intros Hb Hl.
  destruct (cleanup_files w Hb Hl) as (_ & Hnone & _ & Hsame).
  unfoldBackup. simpl. rewrite Hnone. simpl.
  split; [reflexivity|]. split; [reflexivity | exact Hsame].
Qed.

Lemma restore_after_cleanup_witness :
  (PackageBackup.restore
     (PackageBackup.cleanup (Demo.backedUp Demo.offline "4.0.3")).2).1 = Val false.
Proof.
  destruct (restore_after_cleanup (H:=Demo.offline) (Demo.backedUp Demo.offline "4.0.3"))
    as (R & _).
  - intros es. vm_compute. discriminate.
  - intros es. vm_compute. discriminate.
  - exact R.
Defined.

(** ** The Build Verifier and the installations, in terms of the commands *)


(** X10. A failed build is reported in three error entries: the message of
    the error, then its standard error and its standard output, each
    replaced by a fixed text when undefined or empty. *)
Theorem testBuild_failure_log `{Host} (w : World) (e : JsError) :
  (execSync BuildTester.legacyBuildCommand (Some 300000%N) (env w) (files w)).1.1
  = Failed e ->
  (BuildTester.testBuild w).1 = Val false /\
  map (fun entry => (level entry, text entry))
      (drop (length (logFile w)) (logFile (BuildTester.testBuild w).2))
  = [ (INFO, "Testing build process...");
      (ERROR, "Build failed: " +:+ message e);
      (ERROR, "Build stderr: " +:+ orElse (stderr e) "No stderr");
      (ERROR, "Build stdout: " +:+ orElse (stdout e) "No stdout") ].
Proof.
  intros Hf.
  unfold BuildTester.testBuild, BuildTester.testBuild_try, ChildProcess.run,
    tryCatch, bind, ret, UpgradeLogger.info, UpgradeLogger.success,
    UpgradeLogger.error, UpgradeLogger.log.
  simpl. destruct (execSync _ _ _ _) as [[r env'] files']. simpl in Hf. subst r.
  simpl. split; [reflexivity|].
  rewrite <- !app_assoc. rewrite drop_app_length. reflexivity.
Qed.

Lemma testBuild_failure_log_witness :
  (BuildTester.testBuild (Demo.fresh Demo.offline "4.0.3")).1 = Val false /\
  map (fun entry => (level entry, text entry))
      (drop (length (logFile (Demo.fresh Demo.offline "4.0.3")))
            (logFile (BuildTester.testBuild (Demo.fresh Demo.offline "4.0.3")).2))
  = [ (INFO, "Testing build process...");
      (ERROR, "Build failed: " +:+ message (Demo.exitFailure BuildTester.legacyBuildCommand));
      (ERROR, "Build stderr: "
                +:+ orElse (stderr (Demo.exitFailure BuildTester.legacyBuildCommand))
                      "No stderr");
      (ERROR, "Build stdout: "
                +:+ orElse (stdout (Demo.exitFailure BuildTester.legacyBuildCommand))
                      "No stdout") ].
Proof.
  apply (testBuild_failure_log (H:=Demo.offline) (Demo.fresh Demo.offline "4.0.3")
           (Demo.exitFailure BuildTester.legacyBuildCommand)).
  vm_compute. reflexivity.
Defined.


(** X12. A step whose target installation fails: the failure of the cleaning
    command before it, if any, is passed over; the step returns false; no
    further installation and no build is launched; the last entry of the
    log gives the standard error of the command, or its standard output
    when that is empty, or a fixed text when both are. *)
Theorem upgradeToVersion_target_install_fails `{Host}
        (targetVersion description : string) (w : World) (e : JsError) :
  let clean := execSync ReactScriptsUpgrader.cleanCommand None (env w) (files w) in
  let target := execSync (ReactScriptsUpgrader.installTargetCommand targetVersion)
                  (Some 300000%N) clean.1.2 clean.2 in
  let run := ReactScriptsUpgrader.upgradeToVersion targetVersion description w in
  target.1.1 = Failed e ->
  run.1 = Val false /\
  spawned run.2
  = (spawned w ++ [ReactScriptsUpgrader.cleanCommand;
                   ReactScriptsUpgrader.installTargetCommand targetVersion])%list /\
  files run.2 = target.2 /\
  last (logFile run.2)
  = Some (mkEntry (toISOString target.1.2) ERROR
            ("Error details: "
               +:+ orElse (stderr e) (orElse (stdout e) "No additional details"))).
Proof.
  intros clean target run Hf. subst run clean target.
  unfold ReactScriptsUpgrader.upgradeToVersion, ReactScriptsUpgrader.installVersion,
    ChildProcess.run, tryCatch, bind, ret, UpgradeLogger.info, UpgradeLogger.success,
    UpgradeLogger.error, UpgradeLogger.warn, UpgradeLogger.log.
  simpl in *.
  destruct (execSync ReactScriptsUpgrader.cleanCommand None (env w) (files w))
    as [[[out|ec] env1] files1]; simpl in *.
  all: destruct (execSync _ _ env1 files1) as [[r env2] files2]; simpl in *; subst r.
  all: simpl; rewrite last_snoc, <- ?app_assoc; done.
Qed.

Lemma upgradeToVersion_target_install_fails_witness :
  (ReactScriptsUpgrader.upgradeToVersion "5.0.1" "React Scripts 5.0.1"
     (Demo.fresh Demo.offline "4.0.3")).1 = Val false.
Proof.
  destruct (upgradeToVersion_target_install_fails (H:=Demo.offline)
              "5.0.1" "React Scripts 5.0.1" (Demo.fresh Demo.offline "4.0.3")
              (Demo.exitFailure (ReactScriptsUpgrader.installTargetCommand "5.0.1")))
    as (R & _).
  - vm_compute. reflexivity.
  - exact R.
Defined.

(** ** The manifest edits and the workflow patch *)

Section Fields.

Lemma getField_setField_eq key v fields : getField key (setField key v fields) = Some v.
Proof.
  induction fields as [|[k x] rest IH]; simpl.
  - rewrite String.eqb_refl. reflexivity.
  - destruct (String.eqb k key) eqn:E; simpl; rewrite E; [reflexivity | exact IH].
Qed.

Lemma getField_setField_ne key other v fields :
  other <> key -> getField other (setField key v fields) = getField other fields.
Proof.
  intros Hne. induction fields as [|[k x] rest IH]; simpl.
  - destruct (String.eqb key other) eqn:E; [|reflexivity].
    apply String.eqb_eq in E. congruence.
  - destruct (String.eqb k key) eqn:E; simpl.
    + apply String.eqb_eq in E. subst k.
      destruct (String.eqb key other) eqn:E'; [|reflexivity].
      apply String.eqb_eq in E'. congruence.
    + destruct (String.eqb k other); [reflexivity | exact IH].
Qed.

End Fields.

Section ManifestEdits.
Context `{Host}.

Lemma edit_writes (key : string) (v : Json) (text : string)
      (fields : list (string * Json)) (done_msg : string) (w : World) :
  files w !! "./package.json" = Some (File text) ->
  JSON_parse text = inl (JObj fields) ->
  (text <- Fs.readFileSync "./package.json" ;;
   packageJson <- ReactScriptsUpgrader.parse text ;;
   packageJson <- ReactScriptsUpgrader.assign packageJson key v ;;
   Fs.writeFileSync "./package.json" (JSON_stringify packageJson) ;;;
   UpgradeLogger.success done_msg) w
  = (Val tt,
     (UpgradeLogger.success done_msg
        (setFiles (<["./package.json"
                     := File (JSON_stringify (JObj (setField key v fields)))]> (files w))
           w)).2).
Proof.
  intros Hf Hp.
  unfold bind, Fs.readFileSync, ReactScriptsUpgrader.parse, ReactScriptsUpgrader.assign,
    Fs.writeFileSync, ret. rewrite Hf, Hp. simpl. rewrite Hf. reflexivity.
Qed.
End ManifestEdits.

Section ManifestEditsDone.
Context `{Host}.

Lemma updateHomepageUrl_writes (w : World) (text : string) (fields : list (string * Json)) :
  files w !! "./package.json" = Some (File text) ->
  JSON_parse text = inl (JObj fields) ->
  (ReactScriptsUpgrader.updateHomepageUrl w).1 = Val tt /\
  files (ReactScriptsUpgrader.updateHomepageUrl w).2
  = <["./package.json"
      := File (JSON_stringify
                 (JObj (setField "homepage"
                          (JStr "https://shepsci.github.io/claude-sequencer64") fields)))]>
      (files w).
Proof.
  intros Hf Hp.
  pose proof (edit_writes "homepage"
                (JStr "https://shepsci.github.io/claude-sequencer64") text fields
                "Homepage URL updated to claude-sequencer64"
                (UpgradeLogger.info "Updating homepage URL for new repository name..." w).2
                Hf Hp) as E.
  change (ReactScriptsUpgrader.updateHomepageUrl_try
            (UpgradeLogger.info "Updating homepage URL for new repository name..." w).2
          = (Val tt,
             (UpgradeLogger.success "Homepage URL updated to claude-sequencer64"
                (setFiles
                   (<["./package.json"
                      := File (JSON_stringify
                                 (JObj (setField "homepage"
                                          (JStr "https://shepsci.github.io/claude-sequencer64")
                                          fields)))]> (files w))
                   (UpgradeLogger.info
                      "Updating homepage URL for new repository name..." w).2)).2)) in E.
  unfold ReactScriptsUpgrader.updateHomepageUrl, tryCatch, bind.
  change (UpgradeLogger.info "Updating homepage URL for new repository name..." w)
    with (Val tt, (UpgradeLogger.info
                     "Updating homepage URL for new repository name..." w).2).
  lazy beta iota. rewrite E. split; reflexivity.
Qed.

Lemma handleCompatibilityIssues_writes (w : World) (text : string)
      (fields : list (string * Json)) :
  files w !! "./package.json" = Some (File text) ->
  JSON_parse text = inl (JObj fields) ->
  (ReactScriptsUpgrader.handleCompatibilityIssues w).1 = Val tt /\
  files (ReactScriptsUpgrader.handleCompatibilityIssues w).2
  = <["./package.json"
      := File (JSON_stringify
                 (JObj (setField "browserslist" ReactScriptsUpgrader.browserslist fields)))]>
      (files w).
Proof.
  intros Hf Hp.
  pose proof (edit_writes "browserslist" ReactScriptsUpgrader.browserslist text fields
                "Updated browserslist for compatibility"
                (UpgradeLogger.info "Checking for compatibility issues..." w).2
                Hf Hp) as E.
  change (ReactScriptsUpgrader.handleCompatibilityIssues_try
            (UpgradeLogger.info "Checking for compatibility issues..." w).2
          = (Val tt,
             (UpgradeLogger.success "Updated browserslist for compatibility"
                (setFiles
                   (<["./package.json"
                      := File (JSON_stringify
                                 (JObj (setField "browserslist"
                                          ReactScriptsUpgrader.browserslist fields)))]>
                      (files w))
                   (UpgradeLogger.info "Checking for compatibility issues..." w).2)).2)) in E.
  unfold ReactScriptsUpgrader.handleCompatibilityIssues, tryCatch, bind.
  change (UpgradeLogger.info "Checking for compatibility issues..." w)
    with (Val tt, (UpgradeLogger.info "Checking for compatibility issues..." w).2).
  lazy beta iota. rewrite E. split; reflexivity.
Qed.
End ManifestEditsDone.

(** X13. When the manifest parses to an object and the host's [JSON.parse]
    reads back what its [JSON.stringify] wrote after the first edit, the two
    edits leave a manifest that is the original object with [homepage] and
    [browserslist] set: both have their fixed values, every other field keeps
    its value, and no other file changes. *)
Theorem manifest_edits_compose `{Host} (w : World) (text : string)
        (fields : list (string * Json)) :
  let url := JStr "https://shepsci.github.io/claude-sequencer64" in
  let edited := setField "browserslist" ReactScriptsUpgrader.browserslist
                  (setField "homepage" url fields) in
  files w !! "./package.json" = Some (File text) ->
  JSON_parse text = inl (JObj fields) ->
  JSON_parse (JSON_stringify (JObj (setField "homepage" url fields)))
  = inl (JObj (setField "homepage" url fields)) ->
  (ReactScriptsUpgrader.patchManifest w).1 = Val tt /\
  files (ReactScriptsUpgrader.patchManifest w).2
  = <["./package.json" := File (JSON_stringify (JObj edited))]> (files w) /\
  getField "homepage" edited = Some url /\
  getField "browserslist" edited = Some ReactScriptsUpgrader.browserslist /\
  (forall key, key <> "homepage" -> key <> "browserslist" ->
               getField key edited = getField key fields).
Proof.
  intros url edited Hf Hp Hround.
  destruct (updateHomepageUrl_writes w text fields Hf Hp) as [Hv1 Hf1].
  fold url in Hf1.
  assert (Hf2 : files (ReactScriptsUpgrader.updateHomepageUrl w).2 !! "./package.json"
                = Some (File (JSON_stringify (JObj (setField "homepage" url fields)))))
    by (rewrite Hf1; apply lookup_insert_eq).
  destruct (handleCompatibilityIssues_writes _ _ _ Hf2 Hround) as [Hv2 Hf3].
  split; [|split].
  - unfold ReactScriptsUpgrader.patchManifest, bind.
    destruct (ReactScriptsUpgrader.updateHomepageUrl w) as [r1 w1].
    simpl in Hv1. subst r1. exact Hv2.
  - unfold ReactScriptsUpgrader.patchManifest, bind.
    destruct (ReactScriptsUpgrader.updateHomepageUrl w) as [r1 w1].
    simpl in Hv1, Hf1, Hf3. subst r1. rewrite Hf3, Hf1. apply insert_insert_eq.
  - subst edited. split.
    + rewrite getField_setField_ne by discriminate. apply getField_setField_eq.
    + split; [apply getField_setField_eq|].
      intros key H1 H2. rewrite !getField_setField_ne by done. reflexivity.
Qed.

Lemma manifest_edits_compose_witness :
  files (ReactScriptsUpgrader.patchManifest (Demo.fresh Demo.offline "4.0.3")).2
  = <["./package.json"
      := File (@JSON_stringify Demo.offline
                 (JObj (setField "browserslist" ReactScriptsUpgrader.browserslist
                          (setField "homepage"
                             (JStr "https://shepsci.github.io/claude-sequencer64") []))))]>
      (files (Demo.fresh Demo.offline "4.0.3")).
Proof.
  destruct (manifest_edits_compose (H:=Demo.offline) (Demo.fresh Demo.offline "4.0.3")
              "{}" []) as (_ & R & _).
  - vm_compute. reflexivity.
  - vm_compute. reflexivity.
  - vm_compute. reflexivity.
  - exact R.
Defined.

(** X14. The workflow patch needs the file: when the workflow path holds no
    regular file, the method returns without writing anything. *)
Theorem updateWorkflow_needs_file `{Host} (w : World) :
  (forall t, files w !! ReactScriptsUpgrader.workflowPath <> Some (File t)) ->
  (ReactScriptsUpgrader.updateWorkflowForNewVersion w).1 = Val tt /\
  files (ReactScriptsUpgrader.updateWorkflowForNewVersion w).2 = files w /\
  spawned (ReactScriptsUpgrader.updateWorkflowForNewVersion w).2 = spawned w.
Proof.
  intros Hno.
  unfold ReactScriptsUpgrader.updateWorkflowForNewVersion, tryCatch, bind, ret,
    UpgradeLogger.info, UpgradeLogger.success, UpgradeLogger.warn, UpgradeLogger.log,
    Fs.existsSync, Fs.readFileSync, Fs.writeFileSync.
  simpl.
  destruct (files w !! ReactScriptsUpgrader.workflowPath) as [[t|es]|] eqn:E.
  - exfalso. eapply Hno. reflexivity.
  - rewrite bool_decide_eq_true_2 by eauto. simpl. rewrite E. done.
  - rewrite bool_decide_eq_false_2 by (intros [? ?]; discriminate). done.
Qed.

Lemma updateWorkflow_needs_file_witness :
  files (ReactScriptsUpgrader.updateWorkflowForNewVersion
           (Demo.fresh Demo.offline "4.0.3")).2
  = files (Demo.fresh Demo.offline "4.0.3").
Proof.
  destruct (updateWorkflow_needs_file (H:=Demo.offline) (Demo.fresh Demo.offline "4.0.3"))
    as (_ & R & _).
  - intros t. vm_compute. discriminate.
  - exact R.
Defined.

(** ** The substitutions of the workflow patch *)

Section Substitutions.

Lemma append_nil_l (b : string) : "" +:+ b = b.
Proof. reflexivity. Qed.

Lemma dropChars_app (m b : string) : Text.dropChars (String.length m) (m +:+ b) = b.
Proof.
  induction m as [|c m IH]; [destruct b; reflexivity|].
  rewrite append_cons. exact IH.
Qed.

(** Only the leftmost match of [replaceFirst] is replaced. *)
Lemma replaceFirst_leftmost (matchAt : string -> option nat) (rep a m b : string) :
  (forall i, i < String.length a ->
             matchAt (Text.dropChars i (a +:+ m +:+ b)) = None) ->
  matchAt (m +:+ b) = Some (String.length m) ->
  Text.replaceFirst matchAt rep (a +:+ m +:+ b) = a +:+ rep +:+ b.
Proof.
  intros Hno Hm. induction a as [|c a IH].
  - rewrite !append_nil_l. destruct (m +:+ b) as [|c s] eqn:E.
    + cbn [Text.replaceFirst]. rewrite Hm. rewrite <- E, dropChars_app. reflexivity.
    + cbn [Text.replaceFirst]. rewrite Hm. rewrite <- E, dropChars_app. reflexivity.
  - rewrite !append_cons. cbn [Text.replaceFirst].
    pose proof (Hno 0 ltac:(simpl; lia)) as H0.
    rewrite append_cons in H0. cbn [Text.dropChars] in H0. rewrite H0.
    f_equal. apply IH. intros i Hi.
    pose proof (Hno (S i) ltac:(simpl; lia)) as Hi'.
    rewrite append_cons in Hi'. exact Hi'.
Qed.

(** A text without match is left as it is. *)
Lemma replaceFirst_no_match (matchAt : string -> option nat) (rep s : string) :
  (forall i, i <= String.length s -> matchAt (Text.dropChars i s) = None) ->
  Text.replaceFirst matchAt rep s = s.
Proof.
  induction s as [|c s IH]; intros Hno; cbn [Text.replaceFirst].
  - pose proof (Hno 0 ltac:(simpl; lia)) as H0. cbn [Text.dropChars] in H0.
    rewrite H0. reflexivity.
  - pose proof (Hno 0 ltac:(simpl; lia)) as H0. cbn [Text.dropChars] in H0.
    rewrite H0. f_equal. apply IH. intros i Hi. apply (Hno (S i)). simpl. lia.
Qed.

Lemma replaceAll_no_occurrence (lit rep s : string) :
  Text.occurs lit s = false ->
  Text.replaceAll (Text.matchLiteral lit) rep s = s.
Proof.
  unfold Text.replaceAll. induction s as [|c s IH]; cbn [Text.occurs Text.replaceAllFrom].
  - destruct (Text.matchLiteral lit ""); [discriminate | reflexivity].
  - destruct (Text.matchLiteral lit (String c s)); [discriminate|].
    intros Ho. rewrite (IH Ho). reflexivity.
Qed.

Lemma spaceRun_app (ws rest : string) (nl : bool) :
  Text.spaceRun ws = (String.length ws, nl) ->
  Text.spaceRun rest = (0, false) ->
  Text.spaceRun (ws +:+ rest) = (String.length ws, nl).
Proof.
  revert nl. induction ws as [|c ws IH]; intros nl Hws Hrest.
  - rewrite append_nil_l. simpl in Hws. injection Hws as <-. exact Hrest.
  - rewrite append_cons. cbn [Text.spaceRun String.length] in *.
    destruct (Text.isSpace c); [|discriminate].
    destruct (Text.spaceRun ws) as [n b] eqn:E.
    injection Hws as Hn Hb. subst n.
    rewrite (IH b eq_refl Hrest). rewrite Hb. reflexivity.
Qed.

End Substitutions.

(** X15. The rename leaves a text as it is exactly when the text does not hold
    the token. *)
Theorem renameToken_fixed_iff (t : string) :
  ReactScriptsUpgrader.renameToken t = t <-> Text.occurs "claude-sequencer" t = false.
Proof.
  unfold ReactScriptsUpgrader.renameToken. split.
  - intros E. destruct (Text.occurs "claude-sequencer" t) eqn:Ho; [|reflexivity].
    pose proof (replaceAll_grows "claude-sequencer" "claude-sequencer64"
                  ltac:(discriminate) t ltac:(simpl; lia) Ho) as Hg.
    rewrite E in Hg. lia.
  - apply replaceAll_no_occurrence.
Qed.

(** X16. The runtime-version substitution rewrites the leftmost directive for
    version 16, whichever of the two quote characters stands on either side,
    and nothing after it: a second directive further down stays. *)
Theorem node_version_leftmost_only (a b : string) (q1 q2 : ascii) :
  Text.isQuote q1 = true ->
  Text.isQuote q2 = true ->
  (forall i, i < String.length a ->
             Text.matchNodeVersion
               (Text.dropChars i
                  (a +:+ ("node-version: " +:+ String q1 ("16" +:+ String q2 "")) +:+ b))
             = None) ->
  Text.replaceFirst Text.matchNodeVersion "node-version: '18'"
    (a +:+ ("node-version: " +:+ String q1 ("16" +:+ String q2 "")) +:+ b)
  = a +:+ "node-version: '18'" +:+ b.
Proof.
  intros H1 H2 Hno. apply replaceFirst_leftmost; [exact Hno|].
  lazy -[Text.isQuote andb]. rewrite H1, H2. reflexivity.
Qed.

Lemma node_version_leftmost_only_witness :
  Text.replaceFirst Text.matchNodeVersion "node-version: '18'"
    ("with: " +:+ ("node-version: " +:+ String "034" ("16" +:+ String "'" ""))
       +:+ " # then node-version: '16'")
  = "with: " +:+ "node-version: '18'" +:+ " # then node-version: '16'".
Proof.
  apply (node_version_leftmost_only "with: " " # then node-version: '16'" "034" "'").
  - reflexivity.
  - reflexivity.
  - intros i Hi. simpl in Hi.
    do 6 (destruct i as [|i]; [vm_compute; reflexivity|]). lia.
Defined.

(** X17. The removal of the legacy export takes the export, all the white
    space after it, line feeds included, and so the indentation of the next
    line; it applies only when that white space holds a line feed: an export
    followed on its line by other text, or ending the file, is not matched. *)
Theorem legacy_export_removal (a ws rest : string) (nl : bool) :
  Text.spaceRun ws = (String.length ws, nl) ->
  Text.spaceRun rest = (0, false) ->
  Text.matchLegacyExport
    (("export NODE_OPTIONS=--openssl-legacy-provider" +:+ ws) +:+ rest)
  = (if nl
     then Some (String.length ("export NODE_OPTIONS=--openssl-legacy-provider" +:+ ws))
     else None) /\
  (nl = true ->
   (forall i, i < String.length a ->
              Text.matchLegacyExport
                (Text.dropChars i
                   (a +:+ ("export NODE_OPTIONS=--openssl-legacy-provider" +:+ ws)
                      +:+ rest)) = None) ->
   Text.replaceFirst Text.matchLegacyExport ""
     (a +:+ ("export NODE_OPTIONS=--openssl-legacy-provider" +:+ ws) +:+ rest)
   = a +:+ rest).
Proof.
  intros Hws Hrest.
  assert (Hm : Text.matchLegacyExport
                 (("export NODE_OPTIONS=--openssl-legacy-provider" +:+ ws) +:+ rest)
               = if nl
                 then Some (String.length
                              ("export NODE_OPTIONS=--openssl-legacy-provider" +:+ ws))
                 else None).
  { unfold Text.matchLegacyExport. rewrite string_app_assoc, stripPrefix_app.
    rewrite (spaceRun_app ws rest nl Hws Hrest), length_app.
    destruct nl; reflexivity. }
  split; [exact Hm|]. intros -> Hno.
  rewrite (replaceFirst_leftmost _ "" a _ rest Hno Hm). reflexivity.
Qed.

Lemma legacy_export_removal_witness :
  Text.replaceFirst Text.matchLegacyExport ""
    ("run: |" +:+ ("export NODE_OPTIONS=--openssl-legacy-provider"
                     +:+ String "010" "    ") +:+ "npm run build")
  = "run: |" +:+ "npm run build".
Proof.
  destruct (legacy_export_removal "run: |" (String "010" "    ") "npm run build" true)
    as [_ R].
  - reflexivity.
  - reflexivity.
  - apply R; [reflexivity|].
    intros i Hi. simpl in Hi.
    do 6 (destruct i as [|i]; [vm_compute; reflexivity|]). lia.
Defined.

(** X18. A workflow that holds none of the three patterns is left as it is. *)
Theorem patchWorkflow_without_pattern (workflow : string) :
  (forall i, i <= String.length workflow ->
             Text.matchNodeVersion (Text.dropChars i workflow) = None) ->
  (forall i, i <= String.length workflow ->
             Text.matchLegacyExport (Text.dropChars i workflow) = None) ->
  Text.occurs "claude-sequencer" workflow = false ->
  ReactScriptsUpgrader.patchWorkflow workflow = workflow.
Proof.
  intros Hv He Ht. unfold ReactScriptsUpgrader.patchWorkflow.
  rewrite (replaceFirst_no_match _ _ workflow Hv).
  rewrite (replaceFirst_no_match _ _ workflow He).
  apply replaceAll_no_occurrence, Ht.
Qed.

Lemma patchWorkflow_without_pattern_witness :
  ReactScriptsUpgrader.patchWorkflow "name: ci" = "name: ci".
Proof.
  apply patchWorkflow_without_pattern.
  - intros i Hi. simpl in Hi.
    do 9 (destruct i as [|i]; [vm_compute; reflexivity|]). lia.
  - intros i Hi. simpl in Hi.
    do 9 (destruct i as [|i]; [vm_compute; reflexivity|]). lia.
  - vm_compute. reflexivity.
Defined.

(** ** Whole runs *)

Section WholeRuns.
Context `{Host}.



Lemma sameFiles_log msg lvl : respects sameFiles (UpgradeLogger.log msg lvl).
Proof. intros w. reflexivity. Qed.
End WholeRuns.

(** X19. When every step of the path falls back, and in particular when the
    path is empty, the run returns false after a last error entry; each step
    was attempted once, in path order, and each attempt was followed by one
    [restore]. *)
Theorem all_steps_fail `{Host} (path : list UpgradeStep) (w : World) :
  (PackageBackup.create w).1 = Val true ->
  allFallBack path (loopStart w) ->
  ReactScriptsUpgrader.performUpgrade path w
  = (Val false,
     (UpgradeLogger.error "All upgrade attempts failed"
        (afterAttempts path (loopStart w))).2) /\
  markers (logFile (ReactScriptsUpgrader.performUpgrade path w).2)
  = (markers (logFile w)
       ++ flat_map (fun p => [Attempted (ReactScriptsUpgrader.attemptMessage p);
                              Restored]) path)%list.
Proof.
  intros Hc Hall.
  assert (E : ReactScriptsUpgrader.performUpgrade path w
              = (Val false,
                 (UpgradeLogger.error "All upgrade attempts failed"
                    (afterAttempts path (loopStart w))).2)).
  { rewrite (performUpgrade_loop path w Hc).
    rewrite <- (app_nil_r path) at 1.
    rewrite (tryUpgrades_skip path [] _ Hall). reflexivity. }
  split; [exact E|]. rewrite E. simpl.
  rewrite markers_snoc. simpl. rewrite app_nil_r.
  rewrite (markers_afterAttempts path _ Hall), sameMarkers_loopStart. reflexivity.
Qed.

Lemma all_steps_fail_witness :
  (ReactScriptsUpgrader.performUpgrade ReactScriptsUpgrader.upgradePath
     (Demo.fresh Demo.offline "4.0.3")).1 = Val false /\
  markers (logFile (ReactScriptsUpgrader.performUpgrade ReactScriptsUpgrader.upgradePath
                      (Demo.fresh Demo.offline "4.0.3")).2)
  = (markers (logFile (Demo.fresh Demo.offline "4.0.3"))
       ++ flat_map (fun p => [Attempted (ReactScriptsUpgrader.attemptMessage p);
                              Restored]) ReactScriptsUpgrader.upgradePath)%list.
Proof.
  destruct (all_steps_fail (H:=Demo.offline) ReactScriptsUpgrader.upgradePath
              (Demo.fresh Demo.offline "4.0.3")) as [E R].
  - vm_compute. reflexivity.
  - split; [vm_compute; reflexivity|]. split; [vm_compute; reflexivity | exact I].
  - split; [rewrite E; reflexivity | exact R].
Defined.


(** X21. The baseline run of upgrade-test.js. When the backup cannot be
    created it exits with 1 without launching the build; otherwise it
    launches the legacy build once and exits with 0 or 1 on its verdict. It
    never calls [restore]. *)
Theorem baseline_run `{Host} (w : World) :
  let c := PackageBackup.create
             (UpgradeLogger.info "Phase 1: Creating backup and testing baseline"
                (UpgradeLogger.constructor w).2).2 in
  let t := BuildTester.testBuild
             (UpgradeLogger.info "Testing current build to establish baseline..." c.2).2 in
  markers (logFile (UpgradeTest.main w).2) = markers (logFile w) /\
  ((PackageBackup.create w).1 = Val false ->
   (UpgradeTest.main w).1 = Val 1%nat /\ spawned (UpgradeTest.main w).2 = spawned w) /\
  ((PackageBackup.create w).1 = Val true ->
   exists passed, t.1 = Val passed /\
     (UpgradeTest.main w).1 = Val (if passed : bool then 0 else 1)%nat /\
     spawned (UpgradeTest.main w).2
     = (spawned w ++ [BuildTester.legacyBuildCommand])%list).
Proof.
  intros c t.
  assert (Hm : respects sameMarkers UpgradeTest.main).
  { unfold UpgradeTest.main, UpgradeLogger.constructor.
    settleWith ltac:(first [apply sameMarkers_create | apply sameMarkers_testBuild]). }
  split; [apply Hm|].
  assert (Hcf : c.1 = (PackageBackup.create w).1)
    by (apply create_result_files; reflexivity).
  pose proof (sameSpawned_create
                (UpgradeLogger.info "Phase 1: Creating backup and testing baseline"
                   (UpgradeLogger.constructor w).2).2) as Hsc.
  fold c in Hsc. unfold sameSpawned in Hsc. simpl in Hsc.
  assert (E : UpgradeTest.main w
              = (if negb (match c.1 with Val b => b | Exn _ => false end)
                 then ret 1%nat
                 else
                   UpgradeLogger.info "Testing current build to establish baseline..." ;;;
                   baselinePassed <- BuildTester.testBuild ;;
                   if negb baselinePassed then
                     UpgradeLogger.error
                       "Baseline build failed! Cannot proceed with upgrade." ;;;
                     ret 1%nat
                   else
                     UpgradeLogger.success "Baseline established - current build works" ;;;
                     UpgradeLogger.info "=== Upgrade test framework ready ===" ;;;
                     UpgradeLogger.info
                       ("Run " +:+ String "034" ("node upgrade-react-scripts.js"
                                                   +:+ String "034"
                                                         " to proceed with upgrade")) ;;;
                     ret 0%nat) c.2).
  { unfold UpgradeTest.main. unfold bind at 1 2 3.
    change (UpgradeLogger.constructor w) with (Val tt, (UpgradeLogger.constructor w).2).
    lazy beta iota.
    change (UpgradeLogger.info "Phase 1: Creating backup and testing baseline"
              (UpgradeLogger.constructor w).2)
      with (Val tt, (UpgradeLogger.info "Phase 1: Creating backup and testing baseline"
                       (UpgradeLogger.constructor w).2).2).
    lazy beta iota. fold c.
    destruct (total_create
                (UpgradeLogger.info "Phase 1: Creating backup and testing baseline"
                   (UpgradeLogger.constructor w).2).2) as [b Hb].
    fold c in Hb. destruct c as [rc wc]. simpl in Hb. subst rc. reflexivity. }
  split.
  - intros Hfalse. rewrite Hfalse in Hcf. rewrite E, Hcf. simpl. auto.
  - intros Htrue. rewrite Htrue in Hcf.
    destruct (total_testBuild
                (UpgradeLogger.info "Testing current build to establish baseline..."
                   c.2).2) as [passed Hp].
    fold t in Hp. exists passed. split; [exact Hp|].
    pose proof (spawned_testBuild
                  (UpgradeLogger.info "Testing current build to establish baseline..."
                     c.2).2) as Hst.
    fold t in Hst. simpl in Hst. rewrite Hsc in Hst.
    rewrite E, Hcf. simpl. unfold bind.
    change (UpgradeLogger.info "Testing current build to establish baseline..." c.2)
      with (Val tt, (UpgradeLogger.info
                       "Testing current build to establish baseline..." c.2).2).
    lazy beta iota. fold t. destruct t as [rt wt]. simpl in Hp, Hst. subst rt.
    destruct passed; simpl; rewrite Hst; auto.
Qed.

Lemma baseline_run_witness :
  (UpgradeTest.main (Demo.fresh Demo.healthy "4.0.3")).1 = Val 0%nat.
Proof.
  destruct (baseline_run (H:=Demo.healthy) (Demo.fresh Demo.healthy "4.0.3"))
    as (_ & _ & R).
  destruct R as (passed & Hp & Hv & _).
  - vm_compute. reflexivity.
  - vm_compute in Hp. injection Hp as <-. exact Hv.
Defined.
